(** * Location-based attendance system: edge scanner and ingestion service

    A shallow embedding of [python/esp32_ble_scanner.py] and
    [python/attendance_server.py].

    Python values are modelled as follows.
    - [str] is [string]; a character is a code point below 256, so the
      model covers the Latin-1 part of Python's strings (the whitespace,
      digit and case tables below are Python's, cut at code point 255).
    - [int] is [Z]; [bytes] is [list byte].
    - An exception is a value of [exn]; code that may raise lives in the
      monad [result], and a [try]/[except] is a [match] on the result.
    - The MySQL server is a list of rows together with an auto-increment
      counter; what the server answers to a connection attempt or to a
      statement is data of the environment ([store_env]). *)

From Stdlib Require Import ZArith List String Ascii Bool Lia Permutation Sorted.
From Stdlib Require Import Strings.Byte.
Import ListNotations.

Local Open Scope string_scope.
Local Open Scope Z_scope.

(** ** Exceptions and the result monad *)

Inductive exn : Type :=
| ValueError (msg : string)
| TypeError
| AttributeError
| KeyError
| OverflowError
| DbError           (* mysql.connector.Error *)
| HTTPException.    (* werkzeug: the body could not be read as JSON *)

Inductive result (A : Type) : Type :=
| Ok (a : A)
| Raise (e : exn).

Arguments Ok {A} a.
Arguments Raise {A} e.

Definition bind {A B : Type} (c : result A) (k : A -> result B) : result B :=
  match c with
  | Ok a => k a
  | Raise e => Raise e
  end.

Notation "x <- c ;; k" := (bind c (fun x => k))
  (at level 61, c at next level, right associativity).

(** ** Python strings *)

Module PyStr.

Definition code (c : ascii) : Z := Z.of_nat (nat_of_ascii c).
Definition chr (n : Z) : ascii := ascii_of_nat (Z.to_nat n).

Definition between (lo hi n : Z) : bool := (lo <=? n) && (n <=? hi).

(** [str.isspace] on one character (code points below 256). *)
Definition is_space (c : ascii) : bool :=
  let n := code c in
  between 9 13 n || between 28 32 n || (n =? 133) || (n =? 160).

Definition is_digit (c : ascii) : bool := between 48 57 (code c).

Definition digit_val (c : ascii) : Z := code c - 48.
Definition digit_char (d : Z) : ascii := chr (48 + d).

Definition is_empty (s : string) : bool :=
  match s with
  | EmptyString => true
  | String _ _ => false
  end.

Fixpoint lstrip (s : string) : string :=
  match s with
  | EmptyString => EmptyString
  | String c r => if is_space c then lstrip r else s
  end.

Fixpoint rstrip (s : string) : string :=
  match s with
  | EmptyString => EmptyString
  | String c r =>
      let r' := rstrip r in
      if is_empty r' && is_space c then EmptyString else String c r'
  end.

(** [s.strip()] *)
Definition strip (s : string) : string := rstrip (lstrip s).

(** [c.lower()] on one character: A-Z and the upper-case letters of
    Latin-1 (0xC0-0xDE without the multiplication sign 0xD7). *)
Definition lower_char (c : ascii) : ascii :=
  let n := code c in
  if between 65 90 n || (between 192 222 n && negb (n =? 215))
  then chr (n + 32) else c.

Fixpoint lower (s : string) : string :=
  match s with
  | EmptyString => EmptyString
  | String c r => String (lower_char c) (lower r)
  end.

(** [s.replace(c, "")] for a one-character [c]. *)
Fixpoint remove_char (x : ascii) (s : string) : string :=
  match s with
  | EmptyString => EmptyString
  | String c r => if Ascii.eqb c x then remove_char x r else String c (remove_char x r)
  end.

(** [sep.join(parts)] *)
Fixpoint join (sep : string) (parts : list string) : string :=
  match parts with
  | [] => EmptyString
  | [p] => p
  | p :: ps => p ++ sep ++ join sep ps
  end.

Fixpoint concat_all (parts : list string) : string :=
  match parts with
  | [] => EmptyString
  | p :: ps => p ++ concat_all ps
  end.

Fixpoint startswith (t s : string) : bool :=
  match t, s with
  | EmptyString, _ => true
  | String _ _, EmptyString => false
  | String a t', String b s' => Ascii.eqb a b && startswith t' s'
  end.

(** [t in s] for two strings: [t] occurs in [s] at some offset. *)
Fixpoint contains (t s : string) : bool :=
  startswith t s ||
  match s with
  | EmptyString => false
  | String _ s' => contains t s'
  end.

(** Decimal text of a non-negative integer, most significant digit first. *)
Fixpoint dec_loop (fuel : nat) (n : Z) (acc : string) : string :=
  match fuel with
  | O => acc
  | S f =>
      let acc' := String (digit_char (n mod 10)) acc in
      if n <? 10 then acc' else dec_loop f (n / 10) acc'
  end.

Definition dec (n : Z) : string := dec_loop (S (Z.to_nat (Z.log2 n))) n "".

Fixpoint zeros (k : nat) : string :=
  match k with
  | O => EmptyString
  | S k' => String "0" (zeros k')
  end.

Definition zfill (w : nat) (s : string) : string := zeros (w - length s) ++ s.

(** ["{:0<w>d}".format(n)]: zero padding counts the sign in the width. *)
Definition format_0d (w : nat) (n : Z) : string :=
  if n <? 0 then String "-" (zfill (w - 1) (dec (- n))) else zfill w (dec n).

Definition hex_digit (n : Z) : ascii :=
  if n <? 10 then chr (48 + n) else chr (87 + n).

(** ["{:02x}".format(b)] for an element [b] of a [bytes] object. *)
Definition format_02x (b : byte) : string :=
  let n := Z.of_N (Byte.to_N b) in
  String (hex_digit (n / 16)) (String (hex_digit (n mod 16)) EmptyString).

(** [s[:k]] *)
Fixpoint take (k : nat) (s : string) : string :=
  match k, s with
  | S k', String c r => String c (take k' r)
  | _, _ => EmptyString
  end.

(** [str(n)] for an integer. *)
Definition str_of_int (n : Z) : string :=
  if n <? 0 then String "-" (dec (- n)) else dec n.

Fixpoint mem_char (x : ascii) (s : string) : bool :=
  match s with
  | EmptyString => false
  | String c r => Ascii.eqb c x || mem_char x r
  end.

Definition dquote : ascii := "034".

(** Characters [repr] writes as they are: the printable ones. *)
Definition is_printable (c : ascii) : bool :=
  let n := code c in
  between 32 126 n || (between 161 255 n && negb (n =? 173)).

Definition repr_char (quote c : ascii) : string :=
  if Ascii.eqb c quote || Ascii.eqb c "\" then String "\" (String c EmptyString)
  else if Ascii.eqb c "009" then "\t"
  else if Ascii.eqb c "010" then "\n"
  else if Ascii.eqb c "013" then "\r"
  else if is_printable c then String c EmptyString
  else String "\" (String "x"
         (String (hex_digit (code c / 16)) (String (hex_digit (code c mod 16)) EmptyString))).

Fixpoint repr_body (quote : ascii) (s : string) : string :=
  match s with
  | EmptyString => EmptyString
  | String c r => repr_char quote c ++ repr_body quote r
  end.

(** [repr(s)]: single quotes, unless [s] has a single quote and no double one. *)
Definition repr (s : string) : string :=
  let quote : ascii := if mem_char "'" s && negb (mem_char dquote s) then dquote else "'"%char in
  String quote (repr_body quote s ++ String quote EmptyString).

End PyStr.

(** ** The edge scanner ([esp32_ble_scanner.py]) *)

Module Scanner.
Import PyStr.

(** What [adv_data] can be at run time: a [bytes]-like object, or any
    object on which the iteration or the ["{:02x}"] formatting raises
    ([None], a sequence of non-integers). *)
Inductive adv_payload : Type :=
| AdvBytes (bs : list byte)
| AdvMalformed.

Definition hexlify (bs : list byte) : string := concat_all (map format_02x bs).

(** The body of the [try] of [is_target_beacon]. *)
Definition is_target_beacon_body (target_uuid : string) (adv_data : adv_payload)
  : result bool :=
  let target_uuid_bytes := lower (remove_char "-" target_uuid) in
  adv_hex <- match adv_data with
             | AdvBytes bs => Ok (hexlify bs)
             | AdvMalformed => Raise TypeError
             end ;;
  Ok (contains target_uuid_bytes (lower adv_hex)).

Definition is_target_beacon (target_uuid : string) (adv_data : adv_payload) : bool :=
  match is_target_beacon_body target_uuid adv_data with
  | Ok b => b
  | Raise _ => false
  end.

(** The 8-tuple returned by [RTC.datetime()]:
    (year, month, day, weekday, hours, minutes, seconds, subseconds). *)
Record rtc_tuple : Type := {
  rtc_year : Z; rtc_month : Z; rtc_day : Z; rtc_weekday : Z;
  rtc_hours : Z; rtc_minutes : Z; rtc_seconds : Z; rtc_subseconds : Z
}.

Definition epoch_sentinel : string := "1970-01-01 00:00:00".

Definition get_current_timestamp (rtc_datetime : result rtc_tuple) : string :=
  match rtc_datetime with
  | Ok t =>
      format_0d 4 (rtc_year t) ++ "-" ++ format_0d 2 (rtc_month t) ++ "-" ++
      format_0d 2 (rtc_day t) ++ " " ++ format_0d 2 (rtc_hours t) ++ ":" ++
      format_0d 2 (rtc_minutes t) ++ ":" ++ format_0d 2 (rtc_seconds t)
  | Raise _ => epoch_sentinel
  end.

(** One entry of [gap_scan_stop()]: (addr_type, addr, adv_type, rssi, adv_data). *)
Record scan_result : Type := {
  addr_type : Z; addr : list byte; adv_type : Z; rssi : Z; adv_data : adv_payload
}.

(** An entry of [detected_beacons]. *)
Record beacon : Type := {
  mac_address : string; beacon_rssi : Z; timestamp : string
}.

(** The clock as the loop sees it: the outcome of the [k]-th call of
    [rtc.datetime()] made during the tick. *)
Definition clock : Type := nat -> result rtc_tuple.

(** The [for result in scan_results] loop of [scan_for_beacons]; [reads]
    counts the clock reads made so far. *)
Fixpoint scan_loop (target_uuid : string) (rtc : clock) (reads : nat)
  (scan_results : list scan_result) : list beacon :=
  match scan_results with
  | [] => []
  | r :: rest =>
      let mac := join ":" (map format_02x (addr r)) in
      if is_target_beacon target_uuid (adv_data r)
      then {| mac_address := mac; beacon_rssi := rssi r;
              timestamp := get_current_timestamp (rtc reads) |}
           :: scan_loop target_uuid rtc (S reads) rest
      else scan_loop target_uuid rtc reads rest
  end.

(** [scan_for_beacons]: [gap_scan_stop()] either hands over the list of
    results or raises; the outer [except] turns a raise into []. *)
Definition scan_for_beacons (target_uuid : string) (rtc : clock)
  (gap_scan_stop : result (list scan_result)) : list beacon :=
  match gap_scan_stop with
  | Ok scan_results => scan_loop target_uuid rtc 0 scan_results
  | Raise _ => []
  end.

(** The payload built by [send_attendance_data]. *)
Record sighting : Type := {
  student_mac_address : string; classroom_id : Z; sighting_timestamp : string
}.

Definition build_payload (classroom : Z) (b : beacon) : sighting :=
  {| student_mac_address := mac_address b;
     classroom_id := classroom;
     sighting_timestamp := timestamp b |}.

End Scanner.

(** ** Civil date and time ([datetime.datetime]) *)

Module DateTime.
Import PyStr.

Record datetime : Type := {
  year : Z; month : Z; day : Z; hour : Z; minute : Z; second : Z
}.

Definition is_leap (y : Z) : bool :=
  ((y mod 4 =? 0) && negb (y mod 100 =? 0)) || (y mod 400 =? 0).

Definition days_in_month (y m : Z) : Z :=
  if m =? 2 then (if is_leap y then 29 else 28)
  else if (m =? 4) || (m =? 6) || (m =? 9) || (m =? 11) then 30
  else 31.

(** The range check of the [datetime] constructor. *)
Definition valid (d : datetime) : bool :=
  between 1 9999 (year d) && between 1 12 (month d) &&
  between 1 (days_in_month (year d) (month d)) (day d) &&
  between 0 23 (hour d) && between 0 59 (minute d) && between 0 59 (second d).

(** *** [strptime]

    [datetime.strptime] compiles the format into a regular expression
    and runs [re.match] on the text.  For ['%Y-%m-%d %H:%M:%S'] the
    expression is

      (\d\d\d\d)-(1[0-2]|0[1-9]|[1-9])-(3[0-1]|[1-2]\d|0[1-9]|[1-9]| [1-9])
      \s+(2[0-3]|[0-1]\d|\d):([0-5]\d|\d):(6[0-1]|[0-5]\d|\d)

    A matcher takes the rest of the expression as a continuation, so
    that an alternative is retried when what follows it fails, as the
    backtracking engine does. *)

Section Regex.
Variable R : Type.

Definition matcher : Type := string -> option R.

Definition orelse (a b : matcher) : matcher :=
  fun s => match a s with
           | Some r => Some r
           | None => b s
           end.

(** One character of the class [lo-hi] of digits, handing on its value. *)
Definition cls (lo hi : ascii) (k : Z -> matcher) : matcher :=
  fun s => match s with
           | String c r =>
               if between (code lo) (code hi) (code c) then k (digit_val c) r else None
           | EmptyString => None
           end.

Definition lit (x : ascii) (k : matcher) : matcher :=
  fun s => match s with
           | String c r => if Ascii.eqb c x then k r else None
           | EmptyString => None
           end.

(** Two characters [[lo1-hi1][lo2-hi2]] read as a two-digit number. *)
Definition two (lo1 hi1 lo2 hi2 : ascii) (k : Z -> matcher) : matcher :=
  cls lo1 hi1 (fun a => cls lo2 hi2 (fun b => k (10 * a + b))).

(** [\s*], greedy. *)
Fixpoint ws_star (k : matcher) (s : string) : option R :=
  match s with
  | String c r =>
      if is_space c
      then match ws_star k r with
           | Some x => Some x
           | None => k s
           end
      else k s
  | EmptyString => k s
  end.

(** [\s+] *)
Definition ws_plus (k : matcher) : matcher :=
  fun s => match s with
           | String c r => if is_space c then ws_star k r else None
           | EmptyString => None
           end.

Definition re_Y (k : Z -> matcher) : matcher :=
  cls "0" "9" (fun a => cls "0" "9" (fun b => cls "0" "9" (fun c => cls "0" "9" (fun d =>
    k (1000 * a + 100 * b + 10 * c + d))))).

Definition re_m (k : Z -> matcher) : matcher :=
  orelse (two "1" "1" "0" "2" k) (orelse (two "0" "0" "1" "9" k) (cls "1" "9" k)).

Definition re_d (k : Z -> matcher) : matcher :=
  orelse (two "3" "3" "0" "1" k) (orelse (two "1" "2" "0" "9" k)
    (orelse (two "0" "0" "1" "9" k) (orelse (cls "1" "9" k) (lit " " (cls "1" "9" k))))).

Definition re_H (k : Z -> matcher) : matcher :=
  orelse (two "2" "2" "0" "3" k) (orelse (two "0" "1" "0" "9" k) (cls "0" "9" k)).

Definition re_M (k : Z -> matcher) : matcher :=
  orelse (two "0" "5" "0" "9" k) (cls "0" "9" k).

Definition re_S (k : Z -> matcher) : matcher :=
  orelse (two "6" "6" "0" "1" k) (orelse (two "0" "5" "0" "9" k) (cls "0" "9" k)).

End Regex.

Arguments orelse {R} a b s.
Arguments cls {R} lo hi k s.
Arguments lit {R} x k s.
Arguments two {R} lo1 hi1 lo2 hi2 k s.
Arguments ws_star {R} k s.
Arguments ws_plus {R} k s.
Arguments re_Y {R} k s.
Arguments re_m {R} k s.
Arguments re_d {R} k s.
Arguments re_H {R} k s.
Arguments re_M {R} k s.
Arguments re_S {R} k s.

(** [re.match]: the captured fields and the text after the match. *)
Definition regex_match (s : string) : option (datetime * string) :=
  re_Y (fun y => lit "-" (re_m (fun m => lit "-" (re_d (fun d => ws_plus
    (re_H (fun h => lit ":" (re_M (fun mi => lit ":" (re_S (fun sec rest =>
      Some ({| year := y; month := m; day := d;
               hour := h; minute := mi; second := sec |}, rest)))))))))))) s.

Definition strptime_format : string := "%Y-%m-%d %H:%M:%S".

(** [datetime.datetime.strptime(s, '%Y-%m-%d %H:%M:%S')] *)
Definition strptime (s : string) : result datetime :=
  match regex_match s with
  | None =>
      Raise (ValueError ("time data " ++ repr s ++ " does not match format "
                         ++ repr strptime_format))
  | Some (d, rest) =>
      if negb (is_empty rest)
      then Raise (ValueError ("unconverted data remains: " ++ rest))
      else if valid d then Ok d
      else Raise (ValueError "value out of range for datetime")
  end.

(** [d.strftime('%Y-%m-%d %H:%M:%S')].  The text is made by the C
    library, and glibc writes [%Y] as the plain decimal of the year: a
    year below 1000 comes out on fewer than four digits.  The other
    fields are on two digits. *)
Definition strftime (d : datetime) : string :=
  str_of_int (year d) ++ "-" ++ format_0d 2 (month d) ++ "-" ++
  format_0d 2 (day d) ++ " " ++ format_0d 2 (hour d) ++ ":" ++
  format_0d 2 (minute d) ++ ":" ++ format_0d 2 (second d).

(** Order of two datetimes, as [ORDER BY entry_timestamp] compares them. *)
Definition sort_key (d : datetime) : Z :=
  ((((year d * 13 + month d) * 32 + day d) * 24 + hour d) * 60 + minute d) * 60 + second d.

End DateTime.

(** ** JSON values as Python objects *)

Module Json.
Import PyStr.

(** A Python [float]: not-a-number, an infinity, or the finite value
    [m * 2^e]. *)
Inductive pyfloat : Type :=
| FNaN
| FInf (negative : bool)
| FFin (m e : Z).

#[local] Unset Elimination Schemes.

(** What [request.get_json()] can return.  [JDict] lists the members of
    the object in document order; when a key occurs twice the parser
    keeps the last value. *)
Inductive json : Type :=
| JNull
| JBool (b : bool)
| JInt (n : Z)
| JFloat (f : pyfloat)
| JStr (s : string)
| JList (l : list json)
| JDict (kvs : list (string * json)).

#[local] Set Elimination Schemes.

(** Truth value of an object ([if not data]). *)
Definition truthy (v : json) : bool :=
  match v with
  | JNull => false
  | JBool b => b
  | JInt n => negb (n =? 0)
  | JFloat (FFin m _) => negb (m =? 0)
  | JFloat _ => true
  | JStr s => negb (is_empty s)
  | JList l => match l with [] => false | _ :: _ => true end
  | JDict kvs => match kvs with [] => false | _ :: _ => true end
  end.

(** [d.get(k)] on the members of a dict: the last binding wins. *)
Fixpoint dict_get (k : string) (kvs : list (string * json)) : option json :=
  match kvs with
  | [] => None
  | (k', v) :: rest =>
      match dict_get k rest with
      | Some v' => Some v'
      | None => if String.eqb k' k then Some v else None
      end
  end.

Definition is_some {A : Type} (o : option A) : bool :=
  match o with
  | Some _ => true
  | None => false
  end.

Definition str_equal (k : string) (v : json) : bool :=
  match v with
  | JStr s => String.eqb s k
  | _ => false
  end.

(** [k in data] for a string [k]: key of a dict, element of a list,
    substring of a string; other objects are not containers. *)
Definition py_in (k : string) (data : json) : result bool :=
  match data with
  | JDict kvs => Ok (is_some (dict_get k kvs))
  | JList l => Ok (existsb (str_equal k) l)
  | JStr s => Ok (contains k s)
  | _ => Raise TypeError
  end.

(** [data[k]] for a string [k]. *)
Definition getitem (data : json) (k : string) : result json :=
  match data with
  | JDict kvs =>
      match dict_get k kvs with
      | Some v => Ok v
      | None => Raise KeyError
      end
  | _ => Raise TypeError
  end.

(** [v.strip()]: only [str] has the method. *)
Definition strip_method (v : json) : result string :=
  match v with
  | JStr s => Ok (strip s)
  | _ => Raise AttributeError
  end.

(** The blanks [int(str)] skips around the number: the C [isspace]
    characters and, of the other blanks of [str.isspace], those above
    code point 126 (the conversion leaves the separators 0x1C-0x1F as
    they are, and they make the literal invalid). *)
Definition is_int_space (c : ascii) : bool :=
  let n := code c in
  between 9 13 n || (n =? 32) || (n =? 133) || (n =? 160).

Fixpoint skip_int_space (s : string) : string :=
  match s with
  | EmptyString => EmptyString
  | String c r => if is_int_space c then skip_int_space r else s
  end.

(** Where the digit scanner of [int(str)] stands. *)
Inductive scan_state : Type := AtStart | AfterDigit | AfterUnderscore.

(** The run of digits, with single underscores between them: its
    value, the number of its digits and the text that follows it. *)
Fixpoint scan_digits (st : scan_state) (acc count : Z) (s : string)
  : option (Z * Z * string) :=
  match s with
  | EmptyString =>
      match st with
      | AfterDigit => Some (acc, count, EmptyString)
      | _ => None
      end
  | String c r =>
      if is_digit c then scan_digits AfterDigit (10 * acc + digit_val c) (count + 1) r
      else if Ascii.eqb c "_"
           then match st with
                | AfterDigit => scan_digits AfterUnderscore acc count r
                | _ => None
                end
           else match st with
                | AfterDigit => Some (acc, count, s)
                | _ => None
                end
  end.

(** What [int(str)] makes of a text. *)
Inductive int_text : Type :=
| IntValue (n : Z)
| IntTooLong (digits : Z)
| IntInvalid.

(** [sys.int_info.default_max_str_digits] *)
Definition max_str_digits : Z := 4300.

Definition parse_digits (sign : Z) (s : string) : int_text :=
  match scan_digits AtStart 0 0 s with
  | None => IntInvalid
  | Some (value, count, rest) =>
      if count >? max_str_digits then IntTooLong count
      else if is_empty (skip_int_space rest) then IntValue (sign * value)
      else IntInvalid
  end.

Definition parse_int (s : string) : int_text :=
  match skip_int_space s with
  | String "+" r => parse_digits 1 r
  | String "-" r => parse_digits (-1) r
  | t => parse_digits 1 t
  end.

(** [int(s)] for a string, base 10; the message of an invalid literal
    shows at most 200 characters of the [repr]. *)
Definition int_of_str (s : string) : result Z :=
  match parse_int s with
  | IntValue n => Ok n
  | IntTooLong k =>
      Raise (ValueError ("Exceeds the limit (4300 digits) for integer string conversion: "
                         ++ "value has " ++ str_of_int k
                         ++ " digits; use sys.set_int_max_str_digits() to increase the limit"))
  | IntInvalid =>
      Raise (ValueError ("invalid literal for int() with base 10: " ++ take 200 (repr s)))
  end.

(** [int(v)] *)
Definition py_int (v : json) : result Z :=
  match v with
  | JInt n => Ok n
  | JBool b => Ok (if b then 1 else 0)
  | JFloat FNaN => Raise (ValueError "cannot convert float NaN to integer")
  | JFloat (FInf _) => Raise OverflowError
  | JFloat (FFin m e) => Ok (if e <? 0 then Z.quot m (2 ^ (- e)) else m * 2 ^ e)
  | JStr s => int_of_str s
  | JNull | JList _ | JDict _ => Raise TypeError
  end.

End Json.

(** ** The attendance store ([class AttendanceDatabase]) *)

Module AttendanceDatabase.
Import PyStr DateTime.

(** A row of table [attendance]. *)
Record row : Type := {
  row_id : Z; row_mac : string; row_classroom : Z; row_ts : datetime
}.

(** [self.connection]: [None], or a handle together with what
    [is_connected()] answers on it. *)
Inductive handle : Type :=
| NoHandle
| Handle (alive : bool).

(** The handle kept by the service, and the table and auto-increment
    counter kept by the MySQL server. *)
Record world : Type := {
  connection : handle; table : list row; auto_increment : Z
}.

(** What [mysql.connector.connect] does: hands over a live handle, hands
    over a handle that is not connected, or raises [Error]. *)
Inductive connect_outcome : Type := Connected | NotConnected | ConnectError.

(** The answers of the server during one request: to a connection
    attempt, to the opening of a cursor, to the statement (execute and
    commit), and to a rollback. [false] stands for a raised
    [mysql.connector.Error]. *)
Record store_env : Type := {
  on_connect : connect_outcome; cursor_ok : bool; statement_ok : bool;
  rollback_ok : bool
}.

Definition set_connection (w : world) (h : handle) : world :=
  {| connection := h; table := table w; auto_increment := auto_increment w |}.

(** [connect]: [True] when connected; the fall-through [None] and the
    [False] of the [except] are both falsy. *)
Definition connect (env : store_env) (w : world) : bool * world :=
  match on_connect env with
  | Connected => (true, set_connection w (Handle true))
  | NotConnected => (false, set_connection w (Handle false))
  | ConnectError => (false, w)
  end.

(** [disconnect]: a connected handle is closed; the closed handle stays
    in [self.connection]. *)
Definition disconnect (w : world) : world :=
  match connection w with
  | Handle true => set_connection w (Handle false)
  | _ => w
  end.

(** [not self.connection or not self.connection.is_connected()] *)
Definition needs_connect (w : world) : bool :=
  match connection w with
  | Handle true => false
  | _ => true
  end.

(** The reconnect-on-demand prologue shared by both operations: [None]
    when the operation must give up. *)
Definition ensure_connected (env : store_env) (w : world) : option world :=
  if needs_connect w
  then match connect env w with
       | (true, w') => Some w'
       | (false, _) => None
       end
  else Some w.

(** The handle after a failed prologue. *)
Definition after_failed_connect (env : store_env) (w : world) : world :=
  snd (connect env w).

Definition append_row (w : world) (mac : string) (classroom : Z) (ts : datetime) : world :=
  {| connection := connection w;
     table := table w ++ [{| row_id := auto_increment w; row_mac := mac;
                             row_classroom := classroom; row_ts := ts |}];
     auto_increment := auto_increment w + 1 |}.

(** The handler [except Error] of [insert_attendance_record]: the
    rollback, then [False]; a rollback that raises is caught by nobody
    in the method. *)
Definition rollback_then_false (env : store_env) : result bool :=
  if rollback_ok env then Ok false else Raise DbError.

(** [insert_attendance_record]: the flag returned, or the exception that
    leaves the method, and the world after. *)
Definition insert_attendance_record (env : store_env) (w : world)
  (student_mac : string) (classroom_id : Z) (timestamp : string)
  : result bool * world :=
  match ensure_connected env w with
  | None => (Ok false, after_failed_connect env w)
  | Some w1 =>
      if negb (cursor_ok env) then (rollback_then_false env, w1)     (* except Error *)
      else match strptime timestamp with
           | Raise _ => (Ok false, w1)                               (* except ValueError *)
           | Ok timestamp_obj =>
               if statement_ok env
               then (Ok true, append_row w1 student_mac classroom_id timestamp_obj)
               else (rollback_then_false env, w1)                    (* except Error *)
           end
  end.

(** A record as [get_recent_attendance] returns it. *)
Record record : Type := {
  id : Z; student_mac_address : string; classroom_id : Z; entry_timestamp : string
}.

Definition render (r : row) : record :=
  {| id := row_id r; student_mac_address := row_mac r;
     classroom_id := row_classroom r; entry_timestamp := strftime (row_ts r) |}.

(** [ORDER BY entry_timestamp DESC]; rows of equal timestamp stay in
    insertion order. *)
Fixpoint insert_desc (r : row) (l : list row) : list row :=
  match l with
  | [] => [r]
  | x :: xs =>
      if sort_key (row_ts x) <=? sort_key (row_ts r) then r :: l
      else x :: insert_desc r xs
  end.

Definition order_desc (l : list row) : list row := fold_right insert_desc [] l.

(** The SELECT of [get_recent_attendance]; the server refuses a negative
    [LIMIT]. *)
Definition select_recent (env : store_env) (w : world) (limit : Z) : result (list row) :=
  if negb (statement_ok env) || (limit <? 0) then Raise DbError
  else Ok (firstn (Z.to_nat limit) (order_desc (table w))).

(** [get_recent_attendance] *)
Definition get_recent_attendance (env : store_env) (w : world) (limit : Z)
  : list record * world :=
  match ensure_connected env w with
  | None => ([], after_failed_connect env w)
  | Some w1 =>
      if negb (cursor_ok env) then ([], w1)
      else match select_recent env w1 limit with
           | Ok records => (map render records, w1)
           | Raise _ => ([], w1)
           end
  end.

End AttendanceDatabase.

(** ** The ingestion service (the Flask routes) *)

Module Server.
Import PyStr DateTime Json AttendanceDatabase.

Inductive body_data : Type :=
| NoData
| Echo (mac : string) (classroom : Z) (ts : string)
| Records (rs : list record).

(** A JSON response with its status code. *)
Record response : Type := {
  status : Z; success : bool; message : string; data : body_data
}.

Definition failure (code : Z) (msg : string) : response :=
  {| status := code; success := false; message := msg; data := NoData |}.

Definition required_fields : list string :=
  ["student_mac_address"; "classroom_id"; "timestamp"].

(** [[field for field in fields if field not in data]] *)
Fixpoint missing_in (data : json) (fields : list string) : result (list string) :=
  match fields with
  | [] => Ok []
  | field :: rest =>
      present <- py_in field data ;;
      others <- missing_in data rest ;;
      Ok (if present then others else field :: others)
  end.

(** A step of the handler that does not touch the store: when it
    raises, the world is still [w]. *)
Definition pure_step {A B : Type} (w : world) (c : result A)
  (k : A -> result B * world) : result B * world :=
  match c with
  | Ok a => k a
  | Raise e => (Raise e, w)
  end.

Definition recorded (student_mac : string) (classroom : Z) (timestamp : string) : response :=
  {| status := 200; success := true;
     message := "Attendance recorded successfully";
     data := Echo student_mac classroom timestamp |}.

(** The body of the [try] of [record_attendance]: the answer or the
    exception raised, and the world after.  [get_json] is the outcome of
    [request.get_json()], which hands over the parsed body or raises. *)
Definition record_attendance_body (env : store_env) (w : world) (get_json : result json)
  : result response * world :=
  pure_step w get_json (fun data =>
  if negb (truthy data) then (Ok (failure 400 "No JSON data provided"), w)
  else
    pure_step w (missing_in data required_fields) (fun missing_fields =>
    match missing_fields with
    | _ :: _ =>
        (Ok (failure 400 ("Missing required fields: " ++ join ", " missing_fields)), w)
    | [] =>
        pure_step w (v <- getitem data "student_mac_address" ;; strip_method v)
          (fun student_mac =>
        pure_step w (v <- getitem data "classroom_id" ;; py_int v) (fun classroom =>
        pure_step w (v <- getitem data "timestamp" ;; strip_method v) (fun timestamp =>
        if is_empty student_mac
        then (Ok (failure 400 "Student MAC address cannot be empty"), w)
        else if classroom <=? 0
        then (Ok (failure 400 "Classroom ID must be a positive integer"), w)
        else
          let (outcome, w') :=
            insert_attendance_record env w student_mac classroom timestamp in
          (inserted <- outcome ;;
           Ok (if inserted
               then recorded student_mac classroom timestamp
               else failure 500 "Failed to record attendance in database"), w'))))
    end)).

(** The two [except] clauses of [record_attendance]. *)
Definition answer_of (outcome : result response) : response :=
  match outcome with
  | Ok resp => resp
  | Raise (ValueError msg) => failure 400 ("Invalid data format: " ++ msg)
  | Raise _ => failure 500 "Internal server error"
  end.

(** [POST /api/attendance] *)
Definition record_attendance (env : store_env) (w : world) (get_json : result json)
  : response * world :=
  let (outcome, w') := record_attendance_body env w get_json in
  (answer_of outcome, w').

(** [request.args.get('limit', 10, type=int)]: the default when the
    argument is absent or is not the text of an integer. *)
Definition limit_arg (raw : option string) : Z :=
  match raw with
  | None => 10
  | Some s =>
      match int_of_str s with
      | Ok n => n
      | Raise _ => 10
      end
  end.

(** [GET /api/attendance/recent] *)
Definition get_recent_attendance (env : store_env) (w : world) (raw_limit : option string)
  : response * world :=
  let limit := limit_arg raw_limit in
  let limit := if limit >? 100 then 100 else limit in
  let (records, w') := AttendanceDatabase.get_recent_attendance env w limit in
  ({| status := 200; success := true;
      message := "Retrieved " ++ str_of_int (Z.of_nat (List.length records))
                 ++ " recent attendance records";
      data := Records records |}, w').

(** The body of the answer of [/api/health]. *)
Record health_response : Type := {
  health_status : Z; health_success : bool; health_message : string;
  database_status : string; health_timestamp : string
}.

(** [GET /api/health]; [now] is [datetime.datetime.now()].  The probe is
    a fresh [db.connect()], whatever handle is held. *)
Definition health_check (env : store_env) (w : world) (now : datetime)
  : health_response * world :=
  let (connected, w') := connect env w in
  ({| health_status := 200; health_success := true;
      health_message := "Server is running";
      database_status := if connected then "connected" else "disconnected";
      health_timestamp := strftime now |}, w').

(** The handlers of the 404 and 500 errors. *)
Definition not_found : response := failure 404 "Endpoint not found".
Definition internal_error : response := failure 500 "Internal server error".

(** [initialize_server]: the connection test made before the server starts. *)
Definition initialize_server (env : store_env) (w : world) : world :=
  match connect env w with
  | (true, w') => disconnect w'
  | (false, w') => w'
  end.

End Server.

(** ** Notions of the specification, to compare the code with *)

Module Spec.
Import PyStr DateTime.

(** [t] is a contiguous substring of [s]. *)
Definition is_substring (t s : string) : Prop :=
  exists pre post : string, s = pre ++ t ++ post.

(** The identifier with its separator (the hyphen of a UUID) removed,
    in lower case. *)
Definition normalized_identifier (target : string) : string :=
  lower (remove_char "-" target).

Definition num2 (a b : ascii) : Z := 10 * digit_val a + digit_val b.

Definition num4 (a b c d : ascii) : Z :=
  1000 * digit_val a + 100 * digit_val b + 10 * digit_val c + digit_val d.

(** A string of the fixed format [YYYY-MM-DD HH:MM:SS]: nineteen
    characters, digits around the separators, naming a date of the
    calendar and a time of day. *)
Definition fixed_format (s : string) : bool :=
  match s with
  | String y1 (String y2 (String y3 (String y4 (String p1
    (String m1 (String m2 (String p2
    (String d1 (String d2 (String p3
    (String h1 (String h2 (String p4
    (String n1 (String n2 (String p5
    (String s1 (String s2 EmptyString)))))))))))))))))) =>
      forallb is_digit [y1; y2; y3; y4; m1; m2; d1; d2; h1; h2; n1; n2; s1; s2]
      && Ascii.eqb p1 "-" && Ascii.eqb p2 "-" && Ascii.eqb p3 " "
      && Ascii.eqb p4 ":" && Ascii.eqb p5 ":"
      && valid {| year := num4 y1 y2 y3 y4; month := num2 m1 m2; day := num2 d1 d2;
                  hour := num2 h1 h2; minute := num2 n1 n2; second := num2 s1 s2 |}
  | _ => false
  end.

(** What [scan_for_beacons] is expected to collect for one matching
    advertisement [r] stamped [stamp]. *)
Definition beacon_of (r : Scanner.scan_result) (stamp : string) : Scanner.beacon :=
  {| Scanner.mac_address := join ":" (map format_02x (Scanner.addr r));
     Scanner.beacon_rssi := Scanner.rssi r; Scanner.timestamp := stamp |}.

Definition matches (target : string) (r : Scanner.scan_result) : bool :=
  Scanner.is_target_beacon target (Scanner.adv_data r).

Definition gives_connection (o : AttendanceDatabase.connect_outcome) : bool :=
  match o with
  | AttendanceDatabase.Connected => true
  | _ => false
  end.

(** The store can be reached: the service holds a live handle or the
    server grants a connection. *)
Definition reachable (env : AttendanceDatabase.store_env) (w : AttendanceDatabase.world) : bool :=
  negb (AttendanceDatabase.needs_connect w)
  || gives_connection (AttendanceDatabase.on_connect env).

(** The store is reachable and refuses neither cursor nor statement. *)
Definition store_ok (env : AttendanceDatabase.store_env) (w : AttendanceDatabase.world) : bool :=
  reachable env w && AttendanceDatabase.cursor_ok env && AttendanceDatabase.statement_ok env.

(** A read fails: no connection can be had, or the cursor or the query
    raises a database error. *)
Definition read_fails (env : AttendanceDatabase.store_env) (w : AttendanceDatabase.world) : bool :=
  negb (store_ok env w).

Definition is_str (v : Json.json) : bool :=
  match v with
  | Json.JStr _ => true
  | _ => false
  end.

(** The members of a payload that has the three required fields. *)
Definition has_fields (kvs : list (string * Json.json)) (v_mac v_classroom v_timestamp : Json.json)
  : Prop :=
  Json.dict_get "student_mac_address" kvs = Some v_mac
  /\ Json.dict_get "classroom_id" kvs = Some v_classroom
  /\ Json.dict_get "timestamp" kvs = Some v_timestamp.

(** The response to a read that found no record. *)
Definition empty_listing : Server.response :=
  {| Server.status := 200; Server.success := true;
     Server.message := "Retrieved 0 recent attendance records";
     Server.data := Server.Records [] |}.

(** The fields of [Server.required_fields] a dict lacks, in that order. *)
Definition missing_fields_of (kvs : list (string * Json.json)) : list string :=
  filter (fun f => negb (Json.is_some (Json.dict_get f kvs))) Server.required_fields.

(** The four decimal digits of a number below 10000. *)
Definition digits4 (n : Z) : string :=
  String (digit_char (n / 1000)) (String (digit_char (n / 100 mod 10))
    (String (digit_char (n / 10 mod 10)) (String (digit_char (n mod 10)) ""))).

(** The JSON object the scanner posts for a sighting ([ujson.dumps] of
    the payload), as [request.get_json()] hands it to the handler. *)
Definition payload_body (p : Scanner.sighting) : Json.json :=
  Json.JDict [("student_mac_address", Json.JStr (Scanner.student_mac_address p));
              ("classroom_id", Json.JInt (Scanner.classroom_id p));
              ("timestamp", Json.JStr (Scanner.sighting_timestamp p))].

(** The reading of the clock as a datetime (the weekday and the
    subseconds are not printed). *)
Definition datetime_of_rtc (t : Scanner.rtc_tuple) : datetime :=
  {| year := Scanner.rtc_year t; month := Scanner.rtc_month t; day := Scanner.rtc_day t;
     hour := Scanner.rtc_hours t; minute := Scanner.rtc_minutes t;
     second := Scanner.rtc_seconds t |}.

(** What the data model asks of a stored row: a positive classroom, an
    address that is not empty and has no blank around it, a timestamp
    that is a date of the calendar and a time of day. *)
Definition row_ok (r : AttendanceDatabase.row) : Prop :=
  0 < AttendanceDatabase.row_classroom r
  /\ is_empty (AttendanceDatabase.row_mac r) = false
  /\ strip (AttendanceDatabase.row_mac r) = AttendanceDatabase.row_mac r
  /\ valid (AttendanceDatabase.row_ts r) = true.

(** [a] is not older than [b]. *)
Definition not_older (a b : AttendanceDatabase.row) : Prop :=
  sort_key (AttendanceDatabase.row_ts b) <= sort_key (AttendanceDatabase.row_ts a).

(** The characters of an address as the scanner prints it. *)
Definition is_mac_char (c : ascii) : bool :=
  between 48 57 (code c) || between 97 102 (code c) || Ascii.eqb c ":".

Fixpoint all_chars (p : ascii -> bool) (s : string) : bool :=
  match s with
  | EmptyString => true
  | String c r => p c && all_chars p r
  end.

(** The address as [scan_for_beacons] prints it. *)
Definition mac_text (addr : list byte) : string := join ":" (map format_02x addr).

(** The value of a lower-case hexadecimal digit. *)
Definition hex_val (c : ascii) : Z :=
  if between 48 57 (code c) then code c - 48 else code c - 87.

(** The byte written by two hexadecimal digits. *)
Definition unhex (s : string) : option byte :=
  match s with
  | String h (String l EmptyString) => Byte.of_N (Z.to_N (16 * hex_val h + hex_val l))
  | _ => None
  end.

(** A string that does not start with a blank. *)
Definition no_lead (s : string) : Prop :=
  match s with
  | EmptyString => True
  | String c _ => is_space c = false
  end.

(** The year written by the first four characters of a text. *)
Definition year_of_text (s : string) : Z :=
  match s with
  | String a (String b (String c (String d _))) => num4 a b c d
  | _ => 0
  end.

(** *** The steps of [record_attendance] before the store, in order *)

(** What the boundary makes of a request: an answer that ends it, or
    the three values handed to the store. *)
Inductive boundary_outcome : Type :=
| Refused (resp : Server.response)
| Passed (student_mac : string) (classroom : Z) (timestamp : string).

Definition server_error : Server.response := Server.failure 500 "Internal server error".

(** The required fields that are not [in] the payload: keys of an
    object, elements of an array, substrings of a string; [None] for a
    payload on which [in] cannot be asked. *)
Definition lacking (data : Json.json) : option (list string) :=
  match data with
  | Json.JDict kvs =>
      Some (filter (fun f => negb (Json.is_some (Json.dict_get f kvs))) Server.required_fields)
  | Json.JList l =>
      Some (filter (fun f => negb (existsb (Json.str_equal f) l)) Server.required_fields)
  | Json.JStr s => Some (filter (fun f => negb (contains f s)) Server.required_fields)
  | _ => None
  end.

(** Step 3, the extraction from an object that has the three fields:
    the address must be a string, then the classroom must convert, then
    the timestamp must be a string; steps 4 and 5, the checks on the
    values: the address not empty, the classroom positive. *)
Definition extract_and_check (v_mac v_classroom v_timestamp : Json.json) : boundary_outcome :=
  match v_mac with
  | Json.JStr mac =>
      match Json.py_int v_classroom with
      | Raise (ValueError msg) => Refused (Server.failure 400 ("Invalid data format: " ++ msg))
      | Raise _ => Refused server_error
      | Ok n =>
          match v_timestamp with
          | Json.JStr ts =>
              if is_empty (strip mac)
              then Refused (Server.failure 400 "Student MAC address cannot be empty")
              else if n <=? 0
              then Refused (Server.failure 400 "Classroom ID must be a positive integer")
              else Passed (strip mac) n (strip ts)
          | _ => Refused server_error
          end
      end
  | _ => Refused server_error
  end.

(** Steps 0 to 5 on the outcome of [request.get_json()].  At step 0 a
    raise is answered by the [except] clauses of the handler: werkzeug
    raises an [HTTPException], answered 500; the clause for [ValueError]
    would answer 400. *)
Definition boundary_check (get_json : result Json.json) : boundary_outcome :=
  match get_json with
  | Raise (ValueError msg) =>                                               (* step 0 *)
      Refused (Server.failure 400 ("Invalid data format: " ++ msg))
  | Raise _ => Refused server_error
  | Ok data =>
      if negb (Json.truthy data)
      then Refused (Server.failure 400 "No JSON data provided")             (* step 1 *)
      else match lacking data with                                          (* step 2 *)
           | None => Refused server_error
           | Some (f :: fs) =>
               Refused (Server.failure 400
                          ("Missing required fields: " ++ join ", " (f :: fs)))
           | Some [] =>
               match data with                                              (* steps 3-5 *)
               | Json.JDict kvs =>
                   match Json.dict_get "student_mac_address" kvs,
                         Json.dict_get "classroom_id" kvs,
                         Json.dict_get "timestamp" kvs with
                   | Some v_mac, Some v_classroom, Some v_timestamp =>
                       extract_and_check v_mac v_classroom v_timestamp
                   | _, _, _ => Refused server_error
                   end
               | _ => Refused server_error
               end
           end
  end.

(** The answer to a request that passed the boundary, from what the
    insert gave. *)
Definition store_answer (outcome : result bool) (student_mac : string) (classroom : Z)
  (timestamp : string) : Server.response :=
  match outcome with
  | Ok true => Server.recorded student_mac classroom timestamp
  | Ok false => Server.failure 500 "Failed to record attendance in database"
  | Raise _ => server_error
  end.

(** The write was refused and the rollback after it raised. *)
Definition rollback_escapes (env : AttendanceDatabase.store_env) (w : AttendanceDatabase.world)
  (timestamp_parses : bool) : bool :=
  reachable env w && negb (AttendanceDatabase.rollback_ok env)
  && (negb (AttendanceDatabase.cursor_ok env)
      || (timestamp_parses && negb (AttendanceDatabase.statement_ok env))).

(** The records listed in an answer. *)
Definition listed (resp : Server.response) : list AttendanceDatabase.record :=
  match Server.data resp with
  | Server.Records rs => rs
  | _ => []
  end.

(** A datetime with the year on four digits and the other fields on two. *)
Definition padded_text (d : datetime) : string :=
  format_0d 4 (year d) ++ "-" ++ format_0d 2 (month d) ++ "-" ++
  format_0d 2 (day d) ++ " " ++ format_0d 2 (hour d) ++ ":" ++
  format_0d 2 (minute d) ++ ":" ++ format_0d 2 (second d).

End Spec.

(** * Properties *)

Import PyStr DateTime Json AttendanceDatabase Server Scanner Spec.

(** ** Strings *)

Lemma startswith_iff (t s : string) :
  startswith t s = true <-> exists post, s = t ++ post.
Proof.
  revert s; induction t as [|a t IH]; intros s; simpl.
  - split; [intros _; now exists s | reflexivity].
  - destruct s as [|b s].
    + split; [discriminate | intros [post H]; discriminate].
    + rewrite andb_true_iff, Ascii.eqb_eq, IH. split.
      * intros [-> [post ->]]. now exists post.
      * intros [post H]. injection H as -> ->. split; [reflexivity | now exists post].
Qed.

Lemma contains_iff (t s : string) : contains t s = true <-> is_substring t s.
Proof.
  unfold is_substring. induction s as [|c s IH].
  - simpl. rewrite orb_false_r, startswith_iff. split.
    + intros [post H]. now exists "", post.
    + intros [pre [post H]]. destruct pre; [now exists post | discriminate].
  - cbn [contains]. rewrite orb_true_iff, startswith_iff, IH. split.
    + intros [[post H] | [pre [post H]]].
      * now exists "", post.
      * exists (String c pre), post. simpl. now rewrite H.
    + intros [pre [post H]]. destruct pre as [|x pre].
      * left. now exists post.
      * right. simpl in H. injection H as _ H. now exists pre, post.
Qed.

Lemma lower_append (a b : string) : lower (a ++ b) = lower a ++ lower b.
Proof.
  induction a as [|c a IH]; simpl; [reflexivity | now rewrite IH].
Qed.

Lemma lower_format_02x (b : byte) : lower (format_02x b) = format_02x b.
Proof.
  destruct b; reflexivity.
Qed.

Lemma lower_hexlify (bs : list byte) : lower (hexlify bs) = hexlify bs.
Proof.
  unfold hexlify. induction bs as [|b bs IH]; simpl; [reflexivity|].
  change (lower (format_02x b ++ concat_all (map format_02x bs))
          = format_02x b ++ concat_all (map format_02x bs)).
  now rewrite lower_append, lower_format_02x, IH.
Qed.

(** ** The beacon filter *)

(** C3, as the code has it.  On a byte sequence the filter answers true
    exactly when the normalized identifier (hyphens removed, lower case)
    is a contiguous substring of the hexadecimal rendering of the bytes; it is a total function to [bool]
    (the [except] turns every raise into false), so a malformed payload
    gives false; an empty payload gives false unless the normalized
    identifier is itself empty, in which case it gives true. *)
Theorem beacon_filter_substring (target : string) (bs : list byte) :
  (is_target_beacon target (AdvBytes bs) = true
   <-> is_substring (normalized_identifier target) (hexlify bs))
  /\ is_target_beacon target AdvMalformed = false
  /\ is_target_beacon target (AdvBytes []) = is_empty (normalized_identifier target).
Proof.
  unfold is_target_beacon, is_target_beacon_body, normalized_identifier. simpl.
  repeat split.
  - rewrite lower_hexlify. apply contains_iff.
  - rewrite lower_hexlify. apply contains_iff.
  - destruct (lower (remove_char "-" target)); reflexivity.
Qed.

(** C3, counterexample to "an empty payload yields false" for every
    identifier: the identifier "-" normalizes to the empty string, which
    occurs in the rendering of the empty payload. *)
Lemma beacon_filter_empty_payload_true :
  hexlify [] = "" /\ is_target_beacon "-" (AdvBytes []) = true.
Proof.
  split; reflexivity.
Qed.

Lemma beacon_filter_substring_witness :
  is_substring (normalized_identifier "12-AB") (hexlify [x00; x12; xab; xff])
  /\ is_target_beacon "12-AB" (AdvBytes [x00; x12; xab; xff]) = true.
Proof.
  assert (H : is_substring (normalized_identifier "12-AB") (hexlify [x00; x12; xab; xff])).
  { exists "00", "ff". reflexivity. }
  split; [exact H|].
  exact (proj2 (proj1 (beacon_filter_substring "12-AB" [x00; x12; xab; xff])) H).
Defined.

(** The filter on the identifier and payload of the specification's example. *)
Example beacon_filter_example :
  is_target_beacon "12345678-1234-5678-1234-56789abcdef0"
    (AdvBytes [x02; x01; x06; x11; x07;
               x12; x34; x56; x78; x12; x34; x56; x78;
               x12; x34; x56; x78; x9a; xbc; xde; xf0]) = true.
Proof. reflexivity. Qed.

(** ** The scan loop and the clock *)

Lemma scan_loop_nth (target : string) (rtc : clock) (results : list scan_result) :
  forall (reads j : nat),
    nth_error (scan_loop target rtc reads results) j
    = option_map (fun r => beacon_of r (get_current_timestamp (rtc (reads + j)%nat)))
        (nth_error (filter (matches target) results) j).
Proof.
  induction results as [|r results IH]; intros reads j.
  - destruct j; reflexivity.
  - cbn [scan_loop filter]. unfold matches at 1.
    destruct (is_target_beacon target (adv_data r)).
    + destruct j as [|j]; cbn [nth_error option_map].
      * now rewrite Nat.add_0_r.
      * rewrite IH. now rewrite Nat.add_succ_r.
    + apply IH.
Qed.

Lemma scan_loop_length (target : string) (rtc : clock) (results : list scan_result) :
  forall reads : nat,
    List.length (scan_loop target rtc reads results)
    = List.length (filter (matches target) results).
Proof.
  induction results as [|r results IH]; intros reads; [reflexivity|].
  cbn [scan_loop filter]. unfold matches at 1.
  destruct (is_target_beacon target (adv_data r)); simpl; now rewrite IH.
Qed.

(** C8.  In a tick whose scan handed over [results], let [r] be the
    [j]-th advertisement that matches the filter.  When the clock read made
    for it raises, the loop still produces the [j]-th beacon, for the
    address and signal strength of [r], stamped with the epoch sentinel,
    and the payload built from it carries the sentinel; the loop produces
    one beacon per matching advertisement, whatever the clock does. *)
Theorem rtc_failure_gives_epoch_sentinel
  (target : string) (rtc : clock) (results : list scan_result)
  (classroom : Z) (j : nat) (r : scan_result) (e : exn)
  (Hmatch : nth_error (filter (matches target) results) j = Some r)
  (Hclock : rtc j = Raise e) :
  let detected := scan_for_beacons target rtc (Ok results) in
  nth_error detected j = Some (beacon_of r "1970-01-01 00:00:00")
  /\ sighting_timestamp (build_payload classroom (beacon_of r "1970-01-01 00:00:00"))
     = "1970-01-01 00:00:00"
  /\ List.length detected = List.length (filter (matches target) results).
Proof.
  cbn zeta. unfold scan_for_beacons. repeat split.
  - rewrite scan_loop_nth, Hmatch. cbn [option_map]. rewrite Nat.add_0_l, Hclock.
    reflexivity.
  - apply scan_loop_length.
Qed.

Lemma rtc_failure_gives_epoch_sentinel_witness :
  let r := {| addr_type := 1; addr := [xaa; xbb; xcc; xdd; xee; x99]; adv_type := 0;
              rssi := -60; adv_data := AdvBytes [x02; x01; x12; xab] |} in
  let rtc : clock := fun _ => Raise OverflowError in
  nth_error (scan_for_beacons "12-AB" rtc (Ok [r])) 0
  = Some {| mac_address := "aa:bb:cc:dd:ee:99"; beacon_rssi := -60;
            timestamp := "1970-01-01 00:00:00" |}.
Proof.
  intros r rtc.
  exact (proj1 (rtc_failure_gives_epoch_sentinel "12-AB" rtc [r] 101 0%nat r OverflowError
                  eq_refl eq_refl)).
Defined.

(** ** Parsing and rendering of timestamps *)

Lemma digit_ten (c : ascii) :
  is_digit c = true ->
  (c = "0" \/ c = "1" \/ c = "2" \/ c = "3" \/ c = "4" \/
   c = "5" \/ c = "6" \/ c = "7" \/ c = "8" \/ c = "9")%char.
Proof.
  intros H.
  destruct c as [[] [] [] [] [] [] [] []]; try discriminate H; tauto.
Qed.

Ltac split_digit H :=
  apply digit_ten in H;
  destruct H as [H|[H|[H|[H|[H|[H|[H|[H|[H|H]]]]]]]]]; subst.

Ltac run_field Hk :=
  unfold re_m, re_d, re_H, re_M, re_S, orelse, two, cls; simpl in *;
  rewrite ?Hk; reflexivity.

Lemma digit_not_space (c : ascii) : is_digit c = true -> is_space c = false.
Proof.
  intros H. split_digit H; reflexivity.
Qed.

Section Fields.
Variable R : Type.
Variable k : Z -> matcher R.
Variables (a b : ascii) (rest : string) (r : R).
Hypothesis Ha : is_digit a = true.
Hypothesis Hb : is_digit b = true.
Hypothesis Hk : k (num2 a b) rest = Some r.

Lemma re_m_two : between 1 12 (num2 a b) = true -> re_m k (String a (String b rest)) = Some r.
Proof.
  intros Hr. unfold num2 in *. split_digit Ha; split_digit Hb; try discriminate Hr; run_field Hk.
Qed.

Lemma re_d_two : between 1 31 (num2 a b) = true -> re_d k (String a (String b rest)) = Some r.
Proof.
  intros Hr. unfold num2 in *. split_digit Ha; split_digit Hb; try discriminate Hr; run_field Hk.
Qed.

Lemma re_H_two : between 0 23 (num2 a b) = true -> re_H k (String a (String b rest)) = Some r.
Proof.
  intros Hr. unfold num2 in *. split_digit Ha; split_digit Hb; try discriminate Hr; run_field Hk.
Qed.

Lemma re_M_two : between 0 59 (num2 a b) = true -> re_M k (String a (String b rest)) = Some r.
Proof.
  intros Hr. unfold num2 in *. split_digit Ha; split_digit Hb; try discriminate Hr; run_field Hk.
Qed.

Lemma re_S_two : between 0 59 (num2 a b) = true -> re_S k (String a (String b rest)) = Some r.
Proof.
  intros Hr. unfold num2 in *. split_digit Ha; split_digit Hb; try discriminate Hr; run_field Hk.
Qed.

End Fields.

Lemma re_Y_four (R : Type) (k : Z -> matcher R) (a b c d : ascii) (rest : string) :
  is_digit a = true -> is_digit b = true -> is_digit c = true -> is_digit d = true ->
  re_Y k (String a (String b (String c (String d rest)))) = k (num4 a b c d) rest.
Proof.
  unfold re_Y, cls, is_digit, num4. intros Ha Hb Hc Hd.
  change (code "0") with 48. change (code "9") with 57.
  now rewrite Ha, Hb, Hc, Hd.
Qed.

Lemma lit_same (R : Type) (k : matcher R) (x : ascii) (rest : string) :
  lit x k (String x rest) = k rest.
Proof.
  unfold lit. now rewrite Ascii.eqb_refl.
Qed.

Lemma ws_plus_one_space (R : Type) (k : matcher R) (c : ascii) (rest : string) :
  is_digit c = true -> ws_plus k (String " " (String c rest)) = k (String c rest).
Proof.
  intros Hc. unfold ws_plus. cbn [ws_star]. change (is_space " ") with true.
  cbn iota. now rewrite (digit_not_space c Hc).
Qed.

Lemma digit_char_val (c : ascii) : is_digit c = true -> digit_char (digit_val c) = c.
Proof.
  intros H. split_digit H; reflexivity.
Qed.

Lemma digit_val_range (c : ascii) : is_digit c = true -> 0 <= digit_val c <= 9.
Proof.
  intros H. split_digit H; vm_compute; split; discriminate.
Qed.

Lemma format_0d_2_digits (a b : ascii) :
  is_digit a = true -> is_digit b = true ->
  format_0d 2 (num2 a b) = String a (String b "").
Proof.
  intros Ha Hb. split_digit Ha; split_digit Hb; reflexivity.
Qed.

Lemma dec_loop_last (f : nat) (n : Z) (acc : string) :
  n < 10 -> dec_loop (S f) n acc = String (digit_char (n mod 10)) acc.
Proof.
  intros H. cbn [dec_loop].
  now replace (n <? 10) with true by (symmetry; apply Z.ltb_lt; exact H).
Qed.

Lemma dec_loop_more (f : nat) (n : Z) (acc : string) :
  10 <= n -> dec_loop (S f) n acc = dec_loop f (n / 10) (String (digit_char (n mod 10)) acc).
Proof.
  intros H. cbn [dec_loop].
  now replace (n <? 10) with false by (symmetry; apply Z.ltb_ge; exact H).
Qed.

Lemma log2_fuel (n lo : Z) (k : nat) :
  0 < lo -> lo <= n -> (k <= Z.to_nat (Z.log2 lo))%nat ->
  exists f, Z.to_nat (Z.log2 n) = (k + f)%nat.
Proof.
  intros Hlo Hn Hk. pose proof (Z.log2_le_mono lo n Hn) as Hm.
  exists (Z.to_nat (Z.log2 n) - k)%nat. lia.
Qed.

Lemma format_0d_4_small (n : Z) : 0 <= n < 10000 -> format_0d 4 n = digits4 n.
Proof.
  intros Hn. unfold format_0d, dec, digits4.
  replace (n <? 0) with false by (symmetry; apply Z.ltb_ge; lia).
  destruct (Z_lt_le_dec n 10) as [H1|H1];
    [|destruct (Z_lt_le_dec n 100) as [H2|H2];
      [|destruct (Z_lt_le_dec n 1000) as [H3|H3]]].
  - rewrite dec_loop_last by lia.
    replace (n / 1000) with 0 by (Z.div_mod_to_equations; lia).
    replace (n / 100) with 0 by (Z.div_mod_to_equations; lia).
    replace (n / 10) with 0 by (Z.div_mod_to_equations; lia).
    reflexivity.
  - destruct (log2_fuel n 10 1) as [f ->]; [lia | lia | vm_compute; lia |].
    cbn [Nat.add]. rewrite dec_loop_more by lia.
    rewrite dec_loop_last by (Z.div_mod_to_equations; lia).
    replace (n / 1000) with 0 by (Z.div_mod_to_equations; lia).
    replace (n / 100) with 0 by (Z.div_mod_to_equations; lia).
    reflexivity.
  - destruct (log2_fuel n 100 2) as [f ->]; [lia | lia | vm_compute; lia |].
    cbn [Nat.add]. rewrite !dec_loop_more by (Z.div_mod_to_equations; lia).
    rewrite dec_loop_last by (Z.div_mod_to_equations; lia).
    replace (n / 1000) with 0 by (Z.div_mod_to_equations; lia).
    replace (n / 10 / 10) with (n / 100) by (Z.div_mod_to_equations; lia).
    reflexivity.
  - destruct (log2_fuel n 1000 3) as [f ->]; [lia | lia | vm_compute; lia |].
    cbn [Nat.add]. rewrite !dec_loop_more by (Z.div_mod_to_equations; lia).
    rewrite dec_loop_last by (Z.div_mod_to_equations; lia).
    replace (n / 10 / 10 / 10) with (n / 1000) by (Z.div_mod_to_equations; lia).
    replace (n / 10 / 10) with (n / 100) by (Z.div_mod_to_equations; lia).
    replace (n / 1000 mod 10) with (n / 1000) by (Z.div_mod_to_equations; lia).
    reflexivity.
Qed.

(** From year 1000 on the plain decimal of the year has four digits. *)
Lemma str_of_int_four_digits (n : Z) :
  1000 <= n < 10000 -> str_of_int n = format_0d 4 n.
Proof.
  intros Hn. rewrite format_0d_4_small by lia. unfold str_of_int, dec, digits4.
  replace (n <? 0) with false by (symmetry; apply Z.ltb_ge; lia).
  destruct (log2_fuel n 1000 3) as [f ->]; [lia | lia | vm_compute; lia |].
  cbn [Nat.add]. rewrite !dec_loop_more by (Z.div_mod_to_equations; lia).
  rewrite dec_loop_last by (Z.div_mod_to_equations; lia).
  replace (n / 10 / 10 / 10) with (n / 1000) by (Z.div_mod_to_equations; lia).
  replace (n / 10 / 10) with (n / 100) by (Z.div_mod_to_equations; lia).
  replace (n / 1000 mod 10) with (n / 1000) by (Z.div_mod_to_equations; lia).
  reflexivity.
Qed.

Lemma format_0d_4_digits (a b c d : ascii) :
  is_digit a = true -> is_digit b = true -> is_digit c = true -> is_digit d = true ->
  format_0d 4 (num4 a b c d) = String a (String b (String c (String d ""))).
Proof.
  intros Ha Hb Hc Hd.
  pose proof (digit_val_range a Ha). pose proof (digit_val_range b Hb).
  pose proof (digit_val_range c Hc). pose proof (digit_val_range d Hd).
  rewrite format_0d_4_small by (unfold num4; lia).
  unfold digits4, num4.
  replace ((1000 * digit_val a + 100 * digit_val b + 10 * digit_val c + digit_val d) / 1000)
    with (digit_val a) by (Z.div_mod_to_equations; lia).
  replace ((1000 * digit_val a + 100 * digit_val b + 10 * digit_val c + digit_val d) / 100 mod 10)
    with (digit_val b) by (Z.div_mod_to_equations; lia).
  replace ((1000 * digit_val a + 100 * digit_val b + 10 * digit_val c + digit_val d) / 10 mod 10)
    with (digit_val c) by (Z.div_mod_to_equations; lia).
  replace ((1000 * digit_val a + 100 * digit_val b + 10 * digit_val c + digit_val d) mod 10)
    with (digit_val d) by (Z.div_mod_to_equations; lia).
  now rewrite !digit_char_val.
Qed.

Lemma days_in_month_le_31 (y m : Z) : days_in_month y m <= 31.
Proof.
  unfold days_in_month.
  destruct (m =? 2); [destruct (is_leap y); lia|].
  destruct ((m =? 4) || (m =? 6) || (m =? 9) || (m =? 11)); lia.
Qed.

Lemma between_weaken (lo hi hi' n : Z) :
  hi <= hi' -> between lo hi n = true -> between lo hi' n = true.
Proof.
  unfold between. intros Hle H. apply andb_true_iff in H as [H1 H2].
  apply andb_true_iff. split; [assumption|]. apply Z.leb_le. apply Z.leb_le in H2. lia.
Qed.

Lemma rstrip_keeps_last (s : string) (c : ascii) :
  is_space c = false -> rstrip (s ++ String c "") = s ++ String c "".
Proof.
  intros Hc. induction s as [|x s IH].
  - cbn [append rstrip is_empty andb]. now rewrite Hc.
  - cbn [append rstrip]. rewrite IH.
    destruct s; reflexivity.
Qed.

(** A string of the fixed format is matched whole by the expression of
    [strptime] and has no blank to strip; it is rendered back to itself
    when its year has no leading zero. *)
Lemma fixed_format_round_trip (s : string) :
  fixed_format s = true ->
  exists d : datetime,
    strptime s = Ok d /\ year d = year_of_text s /\ strip s = s
    /\ (1000 <= year d -> strftime d = s).
Proof.
  intros H.
  destruct s as [|y1 s]; [discriminate H|]. destruct s as [|y2 s]; [discriminate H|].
  destruct s as [|y3 s]; [discriminate H|]. destruct s as [|y4 s]; [discriminate H|].
  destruct s as [|p1 s]; [discriminate H|].
  destruct s as [|m1 s]; [discriminate H|]. destruct s as [|m2 s]; [discriminate H|].
  destruct s as [|p2 s]; [discriminate H|].
  destruct s as [|d1 s]; [discriminate H|]. destruct s as [|d2 s]; [discriminate H|].
  destruct s as [|p3 s]; [discriminate H|].
  destruct s as [|h1 s]; [discriminate H|]. destruct s as [|h2 s]; [discriminate H|].
  destruct s as [|p4 s]; [discriminate H|].
  destruct s as [|n1 s]; [discriminate H|]. destruct s as [|n2 s]; [discriminate H|].
  destruct s as [|p5 s]; [discriminate H|].
  destruct s as [|s1 s]; [discriminate H|]. destruct s as [|s2 s]; [discriminate H|].
  destruct s; [|discriminate H].
  cbn [fixed_format forallb] in H.
  repeat match goal with
         | E : _ && _ = true |- _ => apply andb_true_iff in E; destruct E
         end.
  repeat match goal with
         | E : Ascii.eqb _ _ = true |- _ => apply Ascii.eqb_eq in E; subst
         | E : true = true |- _ => clear E
         end.
  match goal with
  | V : valid ?d = true |- _ =>
      exists d; pose proof V as Hv; unfold valid in V;
      cbn [year month day hour minute second] in V
  end.
  repeat match goal with
         | E : _ && _ = true |- _ => apply andb_true_iff in E; destruct E
         end.
  split; [|split; [reflexivity | split]].
  - assert (Hm : regex_match
      (String y1 (String y2 (String y3 (String y4 (String "-"
      (String m1 (String m2 (String "-" (String d1 (String d2 (String " "
      (String h1 (String h2 (String ":" (String n1 (String n2 (String ":"
      (String s1 (String s2 "")))))))))))))))))))
      = Some ({| year := num4 y1 y2 y3 y4; month := num2 m1 m2; day := num2 d1 d2;
                 hour := num2 h1 h2; minute := num2 n1 n2; second := num2 s1 s2 |}, "")).
    { unfold regex_match. rewrite re_Y_four by assumption. rewrite lit_same.
      apply re_m_two; try assumption. rewrite lit_same.
      apply re_d_two; try assumption;
        [| eapply between_weaken; [apply days_in_month_le_31 | eassumption]].
      rewrite ws_plus_one_space by assumption.
      apply re_H_two; try assumption. rewrite lit_same.
      apply re_M_two; try assumption. rewrite lit_same.
      apply re_S_two; try assumption. reflexivity. }
    unfold strptime. rewrite Hm. cbn [is_empty negb]. now rewrite Hv.
  - unfold strip. cbn [lstrip].
    rewrite (digit_not_space y1) by assumption.
    apply (rstrip_keeps_last
      (String y1 (String y2 (String y3 (String y4 (String "-"
      (String m1 (String m2 (String "-" (String d1 (String d2 (String " "
      (String h1 (String h2 (String ":" (String n1 (String n2 (String ":"
      (String s1 ""))))))))))))))))))).
    now apply digit_not_space.
  - cbn [year]. intros Hy. unfold strftime. cbn [year month day hour minute second].
    rewrite str_of_int_four_digits
      by (match goal with V : between 1 9999 _ = true |- _ =>
            unfold between in V; apply andb_true_iff in V; destruct V as [_ V];
            apply Z.leb_le in V end; lia).
    rewrite format_0d_4_digits by assumption.
    rewrite !format_0d_2_digits by assumption. reflexivity.
Qed.

(** ** The store *)

Lemma ensure_connected_table (env : store_env) (w w1 : world) :
  ensure_connected env w = Some w1 ->
  table w1 = table w /\ auto_increment w1 = auto_increment w.
Proof.
  unfold ensure_connected, connect.
  destruct (needs_connect w); [|intros [= <-]; now split].
  destruct (on_connect env); intros [= <-]; now split.
Qed.

Lemma after_failed_connect_table (env : store_env) (w : world) :
  table (after_failed_connect env w) = table w
  /\ auto_increment (after_failed_connect env w) = auto_increment w.
Proof.
  unfold after_failed_connect, connect. destruct (on_connect env); now split.
Qed.

Lemma reachable_ensure_connected (env : store_env) (w : world) :
  reachable env w = true -> exists w1, ensure_connected env w = Some w1.
Proof.
  unfold reachable, ensure_connected, connect.
  destruct (needs_connect w); cbn [negb orb]; [|now eexists].
  destruct (on_connect env); cbn [gives_connection]; [now eexists | discriminate..].
Qed.

Lemma unreachable_ensure_connected (env : store_env) (w : world) :
  reachable env w = false -> ensure_connected env w = None.
Proof.
  unfold reachable, ensure_connected, connect.
  destruct (needs_connect w); cbn [negb orb]; [|discriminate].
  destruct (on_connect env); cbn [gives_connection]; [discriminate | reflexivity..].
Qed.

(** What leaves [insert_attendance_record]: a flag, or the error of a
    rollback. *)
Lemma insert_outcomes (env : store_env) (w : world) (mac : string) (n : Z) (ts : string) :
  fst (insert_attendance_record env w mac n ts) = Ok true
  \/ fst (insert_attendance_record env w mac n ts) = Ok false
  \/ fst (insert_attendance_record env w mac n ts) = Raise DbError.
Proof.
  unfold insert_attendance_record, rollback_then_false.
  destruct (ensure_connected env w); [|now (right; left)].
  destruct (cursor_ok env); cbn [negb];
    [|destruct (rollback_ok env); [right; left | right; right]; reflexivity].
  destruct (strptime ts); [|now (right; left)].
  destruct (statement_ok env); [now left|].
  destruct (rollback_ok env); [right; left | right; right]; reflexivity.
Qed.

(** An insert that does not return [True] leaves the table and the
    counter as they were. *)
Lemma insert_refused_table (env : store_env) (w w' : world) (mac : string) (n : Z)
  (ts : string) (outcome : result bool) :
  insert_attendance_record env w mac n ts = (outcome, w') ->
  outcome <> Ok true ->
  table w' = table w /\ auto_increment w' = auto_increment w.
Proof.
  unfold insert_attendance_record.
  destruct (ensure_connected env w) as [w1|] eqn:E.
  - apply ensure_connected_table in E.
    destruct (cursor_ok env); cbn [negb]; [|intros [= <- <-] _; exact E].
    destruct (strptime ts); [|intros [= <- <-] _; exact E].
    destruct (statement_ok env); [intros [= <- <-] H; now contradiction H
                                 | intros [= <- <-] _; exact E].
  - intros [= <- <-] _. apply after_failed_connect_table.
Qed.

Lemma insert_desc_in (r x : row) (l : list row) :
  In x (insert_desc r l) <-> x = r \/ In x l.
Proof.
  induction l as [|y l IH]; simpl.
  - intuition.
  - destruct (sort_key (row_ts y) <=? sort_key (row_ts r)); simpl; [intuition|].
    rewrite IH. intuition.
Qed.

Lemma order_desc_in (x : row) (l : list row) : In x (order_desc l) <-> In x l.
Proof.
  induction l as [|y l IH]; simpl; [reflexivity|].
  rewrite insert_desc_in, IH. intuition.
Qed.

Lemma insert_desc_length (r : row) (l : list row) :
  List.length (insert_desc r l) = S (List.length l).
Proof.
  induction l as [|y l IH]; simpl; [reflexivity|].
  destruct (sort_key (row_ts y) <=? sort_key (row_ts r)); simpl; [reflexivity | now rewrite IH].
Qed.

Lemma order_desc_length (l : list row) : List.length (order_desc l) = List.length l.
Proof.
  induction l as [|y l IH]; simpl; [reflexivity|].
  now rewrite insert_desc_length, IH.
Qed.

(** ** The payload of [record_attendance] *)

Lemma dict_get_nonempty (k : string) (kvs : list (string * json)) (v : json) :
  dict_get k kvs = Some v -> truthy (JDict kvs) = true.
Proof.
  destruct kvs; [discriminate | reflexivity].
Qed.

(** Once the three fields are there, the handler is at its extraction step. *)
Lemma record_attendance_body_fields
  (env : store_env) (w : world) (kvs : list (string * json)) (v1 v2 v3 : json) :
  has_fields kvs v1 v2 v3 ->
  record_attendance_body env w (Ok (JDict kvs)) =
    pure_step w (strip_method v1) (fun student_mac =>
    pure_step w (py_int v2) (fun classroom =>
    pure_step w (strip_method v3) (fun timestamp =>
    if is_empty student_mac
    then (Ok (failure 400 "Student MAC address cannot be empty"), w)
    else if classroom <=? 0
    then (Ok (failure 400 "Classroom ID must be a positive integer"), w)
    else
      let (outcome, w') :=
        insert_attendance_record env w student_mac classroom timestamp in
      (inserted <- outcome ;;
       Ok (if inserted
           then recorded student_mac classroom timestamp
           else failure 500 "Failed to record attendance in database"), w')))).
Proof.
  intros (H1 & H2 & H3). unfold record_attendance_body. cbn [pure_step].
  rewrite (dict_get_nonempty _ _ _ H1). cbn [negb].
  unfold required_fields. cbn [missing_in py_in bind].
  rewrite H1, H2, H3. cbn [is_some bind pure_step getitem].
  rewrite H1, H2, H3. reflexivity.
Qed.

(** ** Validation in [record_attendance] *)

(** An insert whose timestamp does not parse is refused after the
    reconnect-on-demand prologue has run, and after the cursor has been
    asked for. *)
Lemma insert_bad_timestamp (env : store_env) (w : world) (mac : string) (n : Z)
  (ts : string) (e : exn) :
  strptime ts = Raise e ->
  insert_attendance_record env w mac n ts
  = (if rollback_escapes env w false then Raise DbError else Ok false,
     match ensure_connected env w with
     | Some w1 => w1
     | None => after_failed_connect env w
     end).
Proof.
  intros Hts. unfold insert_attendance_record, rollback_escapes, rollback_then_false.
  destruct (reachable env w) eqn:Hr.
  - destruct (reachable_ensure_connected env w Hr) as [w1 ->].
    destruct (cursor_ok env); cbn [negb andb orb].
    + rewrite Hts. now rewrite andb_false_r.
    + destruct (rollback_ok env); reflexivity.
  - now rewrite (unreachable_ensure_connected env w Hr).
Qed.

(** C1, what the code does.  A payload with a non-empty address and a
    positive classroom whose timestamp does not parse is not refused at
    the boundary: the handler calls the store, which first runs its
    reconnect-on-demand prologue and asks for a cursor, and only then
    parses the timestamp; the answer is a 500, not a 4xx: the 500 of a
    failed write, or the generic one when the cursor was refused and the
    rollback after it raised.  The table is left as it was. *)
Theorem invalid_timestamp_reaches_store
  (env : store_env) (w : world) (kvs : list (string * json))
  (mac ts : string) (v_classroom : json) (n : Z) (e : exn)
  (Hfields : has_fields kvs (JStr mac) v_classroom (JStr ts))
  (Hmac : is_empty (strip mac) = false)
  (Hint : py_int v_classroom = Ok n)
  (Hpos : 0 < n)
  (Hts : strptime (strip ts) = Raise e) :
  let (resp, w') := record_attendance env w (Ok (JDict kvs)) in
  resp = failure 500 (if rollback_escapes env w false
                      then "Internal server error"
                      else "Failed to record attendance in database")
  /\ w' = match ensure_connected env w with
          | Some w1 => w1
          | None => after_failed_connect env w
          end
  /\ table w' = table w.
Proof.
  unfold record_attendance.
  rewrite (record_attendance_body_fields env w kvs _ _ _ Hfields).
  cbn [strip_method pure_step]. rewrite Hint. cbn [pure_step]. rewrite Hmac.
  replace (n <=? 0) with false by (symmetry; apply Z.leb_gt; exact Hpos).
  rewrite (insert_bad_timestamp env w (strip mac) n (strip ts) e Hts).
  split; [destruct (rollback_escapes env w false); reflexivity|].
  split; [reflexivity|].
  destruct (ensure_connected env w) as [w1|] eqn:E.
  - now apply ensure_connected_table in E.
  - apply after_failed_connect_table.
Qed.

Lemma invalid_timestamp_reaches_store_witness :
  let env := {| on_connect := Connected; cursor_ok := true; statement_ok := true;
                rollback_ok := true |} in
  let w := {| connection := NoHandle; table := []; auto_increment := 1 |} in
  let kvs := [("student_mac_address", JStr "AA:BB:CC:DD:EE:99");
              ("classroom_id", JInt 1); ("timestamp", JStr "not-a-date")] in
  record_attendance env w (Ok (JDict kvs))
  = (failure 500 "Failed to record attendance in database",
     {| connection := Handle true; table := []; auto_increment := 1 |}).
Proof.
  intros env w kvs.
  pose proof (invalid_timestamp_reaches_store env w kvs "AA:BB:CC:DD:EE:99" "not-a-date"
                (JInt 1) 1
                (ValueError "time data 'not-a-date' does not match format '%Y-%m-%d %H:%M:%S'")
                (conj eq_refl (conj eq_refl eq_refl)) eq_refl eq_refl eq_refl eq_refl) as H.
  destruct (record_attendance env w (Ok (JDict kvs))) as [resp w'].
  destruct H as (-> & -> & _). reflexivity.
Defined.

Lemma missing_in_dict (kvs : list (string * json)) (fields : list string) :
  missing_in (JDict kvs) fields
  = Ok (filter (fun f => negb (is_some (dict_get f kvs))) fields).
Proof.
  induction fields as [|f fields IH]; [reflexivity|].
  cbn [missing_in py_in bind filter]. rewrite IH. cbn [bind].
  now destruct (is_some (dict_get f kvs)).
Qed.

Lemma missing_in_list (l : list json) (fields : list string) :
  missing_in (JList l) fields
  = Ok (filter (fun f => negb (existsb (str_equal f) l)) fields).
Proof.
  induction fields as [|f fields IH]; [reflexivity|].
  cbn [missing_in py_in bind filter]. rewrite IH. cbn [bind].
  now destruct (existsb (str_equal f) l).
Qed.

Lemma missing_in_str (s : string) (fields : list string) :
  missing_in (JStr s) fields = Ok (filter (fun f => negb (contains f s)) fields).
Proof.
  induction fields as [|f fields IH]; [reflexivity|].
  cbn [missing_in py_in bind filter]. rewrite IH. cbn [bind].
  now destruct (contains f s).
Qed.

Lemma record_attendance_missing (env : store_env) (w : world) (kvs : list (string * json)) :
  kvs <> [] -> missing_fields_of kvs <> [] ->
  record_attendance env w (Ok (JDict kvs))
  = (failure 400 ("Missing required fields: " ++ join ", " (missing_fields_of kvs)), w).
Proof.
  intros Hne Hmiss. unfold record_attendance, record_attendance_body. cbn [pure_step].
  replace (truthy (JDict kvs)) with true by (destruct kvs; [contradiction | reflexivity]).
  cbn [negb]. rewrite missing_in_dict. cbn [pure_step]. fold (missing_fields_of kvs).
  destruct (missing_fields_of kvs); [contradiction | reflexivity].
Qed.


(** The extraction and the checks on the values, on an object that has
    the three fields. *)
Lemma record_attendance_fields
  (env : store_env) (w : world) (kvs : list (string * json)) (v1 v2 v3 : json) :
  has_fields kvs v1 v2 v3 ->
  record_attendance env w (Ok (JDict kvs))
  = match extract_and_check v1 v2 v3 with
    | Refused resp => (resp, w)
    | Passed mac n ts =>
        (store_answer (fst (insert_attendance_record env w mac n ts)) mac n ts,
         snd (insert_attendance_record env w mac n ts))
    end.
Proof.
  intros Hf. unfold record_attendance, extract_and_check.
  rewrite (record_attendance_body_fields env w kvs _ _ _ Hf).
  destruct v1 as [| | | | mac | |]; try reflexivity.
  cbn [strip_method pure_step].
  destruct (py_int v2) as [n|e]; cbn [pure_step]; [|destruct e; reflexivity].
  destruct v3 as [| | | | ts | |]; try reflexivity.
  cbn [strip_method pure_step].
  destruct (is_empty (strip mac)); [reflexivity|].
  destruct (n <=? 0); [reflexivity|].
  pose proof (insert_outcomes env w (strip mac) n (strip ts)) as Ho.
  destruct (insert_attendance_record env w (strip mac) n (strip ts)) as [outcome w'].
  cbn [fst snd] in *.
  destruct Ho as [-> | [-> | ->]]; reflexivity.
Qed.

(** The handler against the steps written out in [boundary_check]. *)
Lemma record_attendance_boundary (env : store_env) (w : world) (get_json : result json) :
  match boundary_check get_json with
  | Refused resp => record_attendance env w get_json = (resp, w)
  | Passed mac n ts =>
      record_attendance env w get_json
      = (store_answer (fst (insert_attendance_record env w mac n ts)) mac n ts,
         snd (insert_attendance_record env w mac n ts))
  end.
Proof.
  destruct get_json as [data|e]; [|destruct e; reflexivity].
  cbn [boundary_check].
  destruct (truthy data) eqn:Ht; cbn [negb].
  2:{ unfold record_attendance, record_attendance_body. cbn [pure_step]. now rewrite Ht. }
  destruct data as [| b | k | f | s | l | kvs]; try discriminate Ht.
  - unfold record_attendance, record_attendance_body. cbn [pure_step]. now rewrite Ht.
  - unfold record_attendance, record_attendance_body. cbn [pure_step]. now rewrite Ht.
  - unfold record_attendance, record_attendance_body. cbn [pure_step]. now rewrite Ht.
  - unfold record_attendance, record_attendance_body. cbn [pure_step lacking].
    rewrite Ht, missing_in_str. cbn [negb pure_step].
    destruct (filter (fun f => negb (contains f s)) required_fields); reflexivity.
  - unfold record_attendance, record_attendance_body. cbn [pure_step lacking].
    rewrite Ht, missing_in_list. cbn [negb pure_step].
    destruct (filter (fun f => negb (existsb (str_equal f) l)) required_fields); reflexivity.
  - cbn [lacking].
    destruct (dict_get "student_mac_address" kvs) as [v1|] eqn:E1;
      destruct (dict_get "classroom_id" kvs) as [v2|] eqn:E2;
      destruct (dict_get "timestamp" kvs) as [v3|] eqn:E3.
    1:{ unfold required_fields. cbn [filter]. rewrite E1, E2, E3. cbn [is_some negb].
        pose proof (record_attendance_fields env w kvs v1 v2 v3 (conj E1 (conj E2 E3))) as H.
        destruct (extract_and_check v1 v2 v3); exact H. }
    all: unfold record_attendance, record_attendance_body; cbn [pure_step];
      rewrite Ht, missing_in_dict; unfold required_fields; cbn [filter negb pure_step];
      rewrite E1, E2, E3; reflexivity.
Qed.



(** C4, counterexample: the empty object is a JSON object that lacks all
    three fields, and the answer to it names none of them. *)
Lemma empty_object_names_no_field :
  let env := {| on_connect := Connected; cursor_ok := true; statement_ok := true;
                rollback_ok := true |} in
  let w := {| connection := NoHandle; table := []; auto_increment := 1 |} in
  missing_fields_of [] = required_fields
  /\ record_attendance env w (Ok (JDict [])) = (failure 400 "No JSON data provided", w)
  /\ forallb (fun f => negb (contains f "No JSON data provided")) required_fields = true.
Proof.
  repeat split.
Qed.

(** C4, as the code has it.  A non-empty JSON object that lacks at least
    one required field is answered 400 with the message
    "Missing required fields: " followed by the lacking fields, in the
    order of [required_fields], joined by ", "; a required field occurs
    in the message exactly when the object lacks it; the world is
    untouched. *)
Theorem missing_fields_named (env : store_env) (w : world) (kvs : list (string * json))
  (Hne : kvs <> [])
  (Hmiss : missing_fields_of kvs <> []) :
  let (resp, w') := record_attendance env w (Ok (JDict kvs)) in
  status resp = 400 /\ success resp = false
  /\ message resp = "Missing required fields: " ++ join ", " (missing_fields_of kvs)
  /\ (forall f, In f required_fields ->
        (contains f (message resp) = true <-> dict_get f kvs = None))
  /\ w' = w.
Proof.
  rewrite (record_attendance_missing env w kvs Hne Hmiss).
  cbn [status success message failure].
  repeat apply conj; try reflexivity.
  intros f Hf. revert Hmiss. unfold missing_fields_of, required_fields in *.
  cbn [filter].
  destruct (dict_get "student_mac_address" kvs) as [v1|] eqn:E1;
    destruct (dict_get "classroom_id" kvs) as [v2|] eqn:E2;
    destruct (dict_get "timestamp" kvs) as [v3|] eqn:E3;
    cbn [is_some negb]; intros Hmiss; try contradiction;
    destruct Hf as [<-|[<-|[<-|[]]]];
    rewrite ?E1, ?E2, ?E3;
    (split; [vm_compute; intros H; first [reflexivity | discriminate H]
            | intros H; first [discriminate H | vm_compute; reflexivity]]).
Qed.

Lemma missing_fields_named_witness :
  let env := {| on_connect := Connected; cursor_ok := true; statement_ok := true;
                rollback_ok := true |} in
  let w := {| connection := NoHandle; table := []; auto_increment := 1 |} in
  let resp := fst (record_attendance env w
                     (Ok (JDict [("student_mac_address", JStr "AA:BB:CC:DD:EE:88")]))) in
  status resp = 400
  /\ message resp = "Missing required fields: classroom_id, timestamp".
Proof.
  intros env w.
  pose proof (missing_fields_named env w [("student_mac_address", JStr "AA:BB:CC:DD:EE:88")]
                ltac:(discriminate) ltac:(discriminate)) as H.
  destruct (record_attendance env w (Ok (JDict [("student_mac_address", JStr "AA:BB:CC:DD:EE:88")])))
    as [resp w'].
  destruct H as (H1 & _ & H3 & _). split; [exact H1 | exact H3].
Defined.

Lemma insert_accepted (env : store_env) (w : world) (mac : string) (n : Z)
  (ts : string) (d : datetime) :
  store_ok env w = true -> strptime ts = Ok d ->
  exists w1, ensure_connected env w = Some w1
             /\ insert_attendance_record env w mac n ts = (Ok true, append_row w1 mac n d).
Proof.
  unfold store_ok. intros Hok Hts.
  apply andb_true_iff in Hok as [Hok Hstmt]. apply andb_true_iff in Hok as [Hreach Hcur].
  destruct (reachable_ensure_connected env w Hreach) as [w1 E].
  exists w1. split; [exact E|].
  unfold insert_attendance_record. now rewrite E, Hcur, Hts, Hstmt.
Qed.

(** C7.  Take a payload with a non-empty stripped address and a
    timestamp that parses.  When the classroom converts to zero or to a
    negative integer the request is refused with a 400 and the world is
    untouched.  When it converts to 1 the request passes every check of
    the handler: the answer is never a 4xx, and with the store reachable
    and accepting the write it is the 200 that echoes the fields, the
    table growing by the one row. *)
Theorem classroom_id_boundary
  (env : store_env) (w : world) (kvs : list (string * json))
  (mac ts : string) (v_classroom : json) (n : Z) (d : datetime)
  (Hfields : has_fields kvs (JStr mac) v_classroom (JStr ts))
  (Hmac : is_empty (strip mac) = false)
  (Hint : py_int v_classroom = Ok n)
  (Hts : strptime (strip ts) = Ok d) :
  (n <= 0 ->
     record_attendance env w (Ok (JDict kvs))
     = (failure 400 "Classroom ID must be a positive integer", w))
  /\ (n = 1 ->
        (status (fst (record_attendance env w (Ok (JDict kvs)))) = 200
         \/ status (fst (record_attendance env w (Ok (JDict kvs)))) = 500)
        /\ (store_ok env w = true ->
            exists w1, ensure_connected env w = Some w1
              /\ record_attendance env w (Ok (JDict kvs))
                 = ({| status := 200; success := true;
                       message := "Attendance recorded successfully";
                       data := Echo (strip mac) 1 (strip ts) |},
                    append_row w1 (strip mac) 1 d))).
Proof.
  rewrite (record_attendance_fields env w kvs _ _ _ Hfields).
  unfold extract_and_check. rewrite Hint, Hmac.
  split.
  - intros Hn. now replace (n <=? 0) with true by (symmetry; apply Z.leb_le; exact Hn).
  - intros ->. cbn [Z.leb Z.compare]. split.
    + destruct (insert_outcomes env w (strip mac) 1 (strip ts)) as [E | [E | E]];
        rewrite E; [left | right | right]; reflexivity.
    + intros Hok.
      destruct (insert_accepted env w (strip mac) 1 (strip ts) d Hok Hts) as (w1 & E & Hins).
      exists w1. split; [exact E|]. now rewrite Hins.
Qed.

Lemma classroom_id_boundary_witness :
  let env := {| on_connect := Connected; cursor_ok := true; statement_ok := true;
                rollback_ok := true |} in
  let w := {| connection := NoHandle; table := []; auto_increment := 1 |} in
  let members := fun v => [("student_mac_address", JStr "AA:BB:CC:DD:EE:99");
                           ("classroom_id", v);
                           ("timestamp", JStr "2024-01-15 09:30:00")] in
  record_attendance env w (Ok (JDict (members (JInt 0))))
  = (failure 400 "Classroom ID must be a positive integer", w)
  /\ record_attendance env w (Ok (JDict (members (JStr "-4"))))
     = (failure 400 "Classroom ID must be a positive integer", w)
  /\ status (fst (record_attendance env w (Ok (JDict (members (JInt 1)))))) = 200.
Proof.
  intros env w members.
  pose (d := {| year := 2024; month := 1; day := 15; hour := 9; minute := 30; second := 0 |}).
  repeat apply conj.
  - apply (proj1 (classroom_id_boundary env w (members (JInt 0)) "AA:BB:CC:DD:EE:99"
                    "2024-01-15 09:30:00" (JInt 0) 0 d
                    (conj eq_refl (conj eq_refl eq_refl)) eq_refl eq_refl eq_refl)).
    lia.
  - apply (proj1 (classroom_id_boundary env w (members (JStr "-4")) "AA:BB:CC:DD:EE:99"
                    "2024-01-15 09:30:00" (JStr "-4") (-4) d
                    (conj eq_refl (conj eq_refl eq_refl)) eq_refl eq_refl eq_refl)).
    lia.
  - destruct (proj2 (classroom_id_boundary env w (members (JInt 1)) "AA:BB:CC:DD:EE:99"
                    "2024-01-15 09:30:00" (JInt 1) 1 d
                    (conj eq_refl (conj eq_refl eq_refl)) eq_refl eq_refl eq_refl) eq_refl)
      as [_ H].
    destruct (H eq_refl) as (w1 & _ & E). rewrite E. reflexivity.
Defined.

(** ** Fields that are not strings *)

(** C10, counterexample: the timestamp is a number, but the classroom is
    a string that is no integer; the conversion raises its [ValueError]
    before the timestamp is touched, and the answer is a 400. *)
Lemma numeric_timestamp_bad_classroom_is_400 :
  let env := {| on_connect := Connected; cursor_ok := true; statement_ok := true;
                rollback_ok := true |} in
  let w := {| connection := NoHandle; table := []; auto_increment := 1 |} in
  record_attendance env w
    (Ok (JDict [("student_mac_address", JStr "AA:BB:CC:DD:EE:99"); ("classroom_id", JStr "abc");
            ("timestamp", JInt 5)]))
  = (failure 400 "Invalid data format: invalid literal for int() with base 10: 'abc'", w).
Proof.
  reflexivity.
Qed.

(** C10, as the code has it.  With the three fields present, a
    [student_mac_address] that is not a string is answered 500 with the
    generic message; so is a [timestamp] that is not a string, provided the
    address is a string and the conversion of the classroom does not raise
    a [ValueError]; when it does raise one, the answer is the 400 of the
    conversion.  The world is untouched in each case. *)
Theorem non_string_field_response
  (env : store_env) (w : world) (kvs : list (string * json))
  (v_mac v_classroom v_timestamp : json)
  (Hfields : has_fields kvs v_mac v_classroom v_timestamp) :
  (is_str v_mac = false ->
     record_attendance env w (Ok (JDict kvs)) = (failure 500 "Internal server error", w))
  /\ (is_str v_mac = true -> is_str v_timestamp = false ->
      (forall msg, py_int v_classroom <> Raise (ValueError msg)) ->
      record_attendance env w (Ok (JDict kvs)) = (failure 500 "Internal server error", w))
  /\ (forall msg, is_str v_mac = true -> is_str v_timestamp = false ->
      py_int v_classroom = Raise (ValueError msg) ->
      record_attendance env w (Ok (JDict kvs))
      = (failure 400 ("Invalid data format: " ++ msg), w)).
Proof.
  rewrite (record_attendance_fields env w kvs _ _ _ Hfields).
  unfold extract_and_check.
  repeat apply conj.
  - intros H1. destruct v_mac; try discriminate H1; reflexivity.
  - intros H1 H3 Hint. destruct v_mac; try discriminate H1.
    destruct (py_int v_classroom) as [n|e] eqn:E.
    + destruct v_timestamp; try discriminate H3; reflexivity.
    + destruct e; try reflexivity. exfalso. now apply (Hint msg).
  - intros msg H1 H3 Hint. destruct v_mac; try discriminate H1.
    now rewrite Hint.
Qed.

Lemma non_string_field_response_witness :
  let env := {| on_connect := Connected; cursor_ok := true; statement_ok := true;
                rollback_ok := true |} in
  let w := {| connection := NoHandle; table := []; auto_increment := 1 |} in
  let members := fun v_mac v_ts => [("student_mac_address", v_mac); ("classroom_id", JInt 101);
                                    ("timestamp", v_ts)] in
  record_attendance env w (Ok (JDict (members (JInt 12345) (JStr "2024-01-15 09:30:00"))))
  = (failure 500 "Internal server error", w)
  /\ record_attendance env w (Ok (JDict (members (JStr "AA:BB:CC:DD:EE:99") (JInt 1705311000))))
     = (failure 500 "Internal server error", w).
Proof.
  intros env w members. split.
  - apply (proj1 (non_string_field_response env w
                    (members (JInt 12345) (JStr "2024-01-15 09:30:00"))
                    (JInt 12345) (JInt 101) (JStr "2024-01-15 09:30:00")
                    (conj eq_refl (conj eq_refl eq_refl)))).
    reflexivity.
  - apply (proj1 (proj2 (non_string_field_response env w
                    (members (JStr "AA:BB:CC:DD:EE:99") (JInt 1705311000))
                    (JStr "AA:BB:CC:DD:EE:99") (JInt 101) (JInt 1705311000)
                    (conj eq_refl (conj eq_refl eq_refl))))).
    + reflexivity.
    + reflexivity.
    + intros msg H. discriminate H.
Defined.

(** ** Reading recent records *)

(** What the read of the store hands over: nothing, or the first rows of
    the ordered table. *)
Lemma db_get_recent_cases (env : store_env) (w : world) (limit : Z) :
  let (records, w') := AttendanceDatabase.get_recent_attendance env w limit in
  table w' = table w /\ auto_increment w' = auto_increment w
  /\ ((records = [] /\ (store_ok env w = false \/ limit < 0))
      \/ (records = map render (firstn (Z.to_nat limit) (order_desc (table w)))
          /\ store_ok env w = true /\ 0 <= limit)).
Proof.
  unfold AttendanceDatabase.get_recent_attendance, select_recent, store_ok.
  destruct (reachable env w) eqn:Hr.
  - destruct (reachable_ensure_connected env w Hr) as [w1 E]. rewrite E.
    apply ensure_connected_table in E as [Et Ea].
    destruct (cursor_ok env); cbn [negb andb];
      [|repeat split; try assumption; left; split; [reflexivity | now left]].
    destruct (statement_ok env); cbn [negb orb];
      [|repeat split; try assumption; left; split; [reflexivity | now left]].
    destruct (limit <? 0) eqn:El.
    + apply Z.ltb_lt in El. repeat split; try assumption. left. split; [reflexivity | now right].
    + apply Z.ltb_ge in El. repeat split; try assumption. right. now rewrite Et.
  - rewrite (unreachable_ensure_connected env w Hr). cbn [andb].
    destruct (after_failed_connect_table env w) as [Et Ea].
    repeat split; try assumption. left. split; [reflexivity | now left].
Qed.



Lemma get_recent_fails (env : store_env) (w : world) (limit : Z) :
  read_fails env w = true ->
  exists w', AttendanceDatabase.get_recent_attendance env w limit = ([], w')
             /\ table w' = table w.
Proof.
  unfold read_fails, store_ok, AttendanceDatabase.get_recent_attendance, select_recent.
  intros H. apply negb_true_iff in H.
  destruct (reachable env w) eqn:Hr.
  - destruct (reachable_ensure_connected env w Hr) as [w1 E]. rewrite E.
    apply ensure_connected_table in E as [Et _].
    destruct (cursor_ok env); cbn [negb andb] in *; [|now exists w1].
    rewrite H. cbn [negb orb]. now exists w1.
  - rewrite (unreachable_ensure_connected env w Hr).
    exists (after_failed_connect env w). split; [reflexivity|].
    apply after_failed_connect_table.
Qed.

Lemma get_recent_empty_table (env : store_env) (w : world) (limit : Z) :
  table w = [] ->
  fst (AttendanceDatabase.get_recent_attendance env w limit) = [].
Proof.
  intros Hempty. unfold AttendanceDatabase.get_recent_attendance, select_recent.
  destruct (ensure_connected env w) as [w1|] eqn:E; [|reflexivity].
  apply ensure_connected_table in E as [Et _].
  destruct (cursor_ok env); cbn [negb]; [|reflexivity].
  destruct (negb (statement_ok env) || (limit <? 0)); [reflexivity|].
  rewrite Et, Hempty. cbn [order_desc fold_right]. now rewrite firstn_nil.
Qed.

(** C9.  When the read fails (no connection can be had, or the cursor or
    the query raises a database error) the route answers 200 with an
    empty list and the message for zero records, whatever [limit] was
    asked; the table is untouched; and that answer is the very answer any
    read of an empty table gets, so the caller cannot tell them apart. *)
Theorem read_failure_looks_empty
  (env : store_env) (w : world) (raw_limit : option string)
  (Hfail : read_fails env w = true) :
  (exists w', Server.get_recent_attendance env w raw_limit = (empty_listing, w')
              /\ table w' = table w)
  /\ (forall env0 w0, table w0 = [] ->
        fst (Server.get_recent_attendance env0 w0 raw_limit) = empty_listing).
Proof.
  split.
  - unfold Server.get_recent_attendance.
    destruct (get_recent_fails env w
                (if limit_arg raw_limit >? 100 then 100 else limit_arg raw_limit) Hfail)
      as (w' & E & Ht).
    exists w'. rewrite E. now split.
  - intros env0 w0 Hempty. unfold Server.get_recent_attendance.
    pose proof (get_recent_empty_table env0 w0
                  (if limit_arg raw_limit >? 100 then 100 else limit_arg raw_limit) Hempty) as H.
    destruct (AttendanceDatabase.get_recent_attendance env0 w0 _) as [records w'].
    cbn [fst] in *. subst records. reflexivity.
Qed.

Lemma read_failure_looks_empty_witness :
  let env := {| on_connect := ConnectError; cursor_ok := true; statement_ok := true;
                rollback_ok := true |} in
  let r := {| row_id := 1; row_mac := "AA:BB:CC:DD:EE:99"; row_classroom := 101;
              row_ts := {| year := 2024; month := 1; day := 15;
                           hour := 9; minute := 30; second := 0 |} |} in
  let w := {| connection := Handle false; table := [r]; auto_increment := 2 |} in
  fst (Server.get_recent_attendance env w (Some "5")) = empty_listing.
Proof.
  intros env r w.
  destruct (proj1 (read_failure_looks_empty env w (Some "5") eq_refl)) as (w' & E & _).
  rewrite E. reflexivity.
Defined.

(** ** Accepted requests *)

Lemma insert_true_inv (env : store_env) (w w' : world) (mac : string) (n : Z) (ts : string) :
  insert_attendance_record env w mac n ts = (Ok true, w') ->
  exists w1 d, ensure_connected env w = Some w1 /\ strptime ts = Ok d
               /\ w' = append_row w1 mac n d.
Proof.
  unfold insert_attendance_record, rollback_then_false.
  destruct (ensure_connected env w) as [w1|]; [|discriminate].
  destruct (cursor_ok env); cbn [negb]; [|destruct (rollback_ok env); discriminate].
  destruct (strptime ts) as [d|]; [|discriminate].
  destruct (statement_ok env); [|destruct (rollback_ok env); discriminate].
  intros [= <-]. now exists w1, d.
Qed.

(** A refusal at the boundary is a 400 or the generic 500. *)
Lemma boundary_refused (get_json : result json) (resp : response) :
  boundary_check get_json = Refused resp ->
  (exists msg, resp = failure 400 msg) \/ resp = server_error.
Proof.
  unfold boundary_check.
  destruct get_json as [data|e];
    [|destruct e; intros [= <-]; first [left; eexists; reflexivity | now right]].
  destruct (negb (truthy data)); [intros [= <-]; left; eexists; reflexivity|].
  destruct (lacking data) as [[|f fs]|];
    [| intros [= <-]; left; eexists; reflexivity | intros [= <-]; now right].
  destruct data as [| | | | | | kvs]; try (intros [= <-]; now right).
  destruct (dict_get "student_mac_address" kvs) as [v1|]; [|intros [= <-]; now right].
  destruct (dict_get "classroom_id" kvs) as [v2|]; [|intros [= <-]; now right].
  destruct (dict_get "timestamp" kvs) as [v3|]; [|intros [= <-]; now right].
  unfold extract_and_check.
  destruct v1 as [| | | | mac | |]; try (intros [= <-]; now right).
  destruct (py_int v2) as [n|e];
    [|destruct e; intros [= <-]; first [left; eexists; reflexivity | now right]].
  destruct v3 as [| | | | ts | |]; try (intros [= <-]; now right).
  destruct (is_empty (strip mac)); [intros [= <-]; left; eexists; reflexivity|].
  destruct (n <=? 0); [intros [= <-]; left; eexists; reflexivity | discriminate].
Qed.

(** What passes the boundary: an object with the three fields, strings
    as address and timestamp, a classroom that converts to a positive
    integer, an address that is not blank. *)
Lemma boundary_passed (get_json : result json) (m : string) (n : Z) (t : string) :
  boundary_check get_json = Passed m n t ->
  exists kvs mac v_classroom ts,
    get_json = Ok (JDict kvs)
    /\ has_fields kvs (JStr mac) v_classroom (JStr ts)
    /\ py_int v_classroom = Ok n /\ 0 < n
    /\ is_empty (strip mac) = false
    /\ m = strip mac /\ t = strip ts.
Proof.
  unfold boundary_check.
  destruct get_json as [data|e]; [|destruct e; discriminate].
  destruct (negb (truthy data)); [discriminate|].
  destruct (lacking data) as [[|f fs]|]; [| discriminate | discriminate].
  destruct data as [| | | | | | kvs]; try discriminate.
  destruct (dict_get "student_mac_address" kvs) as [v1|] eqn:E1; [|discriminate].
  destruct (dict_get "classroom_id" kvs) as [v2|] eqn:E2; [|discriminate].
  destruct (dict_get "timestamp" kvs) as [v3|] eqn:E3; [|discriminate].
  unfold extract_and_check.
  destruct v1 as [| | | | mac | |]; try discriminate.
  destruct (py_int v2) as [k|e] eqn:Hint; [|destruct e; discriminate].
  destruct v3 as [| | | | ts | |]; try discriminate.
  destruct (is_empty (strip mac)) eqn:Hmac; [discriminate|].
  destruct (k <=? 0) eqn:Hk; [discriminate|].
  intros [= <- <- <-]. apply Z.leb_gt in Hk.
  exists kvs, mac, v2, ts. repeat split; assumption.
Qed.

(** Only one path of the handler ends in a 200: the payload is an object
    with the three fields, address and timestamp are strings, the
    classroom converts to a positive integer, and the insert went through. *)
Lemma accepted_inv (env : store_env) (w w' : world) (get_json : result json)
  (resp : response) :
  record_attendance env w get_json = (resp, w') -> status resp = 200 ->
  exists kvs mac v_classroom ts n w1 d,
    get_json = Ok (JDict kvs)
    /\ has_fields kvs (JStr mac) v_classroom (JStr ts)
    /\ py_int v_classroom = Ok n /\ 0 < n
    /\ ensure_connected env w = Some w1
    /\ strptime (strip ts) = Ok d
    /\ Server.data resp = Echo (strip mac) n (strip ts)
    /\ w' = append_row w1 (strip mac) n d.
Proof.
  intros Hrun Hst.
  pose proof (record_attendance_boundary env w get_json) as Hb.
  destruct (boundary_check get_json) as [r | m n t] eqn:Eb.
  - rewrite Hb in Hrun. injection Hrun as <- <-.
    destruct (boundary_refused _ _ Eb) as [[msg ->] | ->]; discriminate Hst.
  - destruct (boundary_passed _ _ _ _ Eb)
      as (kvs & mac & v2 & ts & -> & Hf & Hint & Hpos & Hmac & -> & ->).
    rewrite Hb in Hrun.
    destruct (insert_attendance_record env w (strip mac) n (strip ts)) as [outcome w2] eqn:Hins.
    cbn [fst snd] in Hrun. injection Hrun as <- <-.
    destruct outcome as [[|]|e]; try discriminate Hst.
    destruct (insert_true_inv _ _ _ _ _ _ Hins) as (w1 & d & Hc & Hts & ->).
    destruct Hf as (H1 & H2 & H3).
    exists kvs, mac, v2, ts, n, w1, d. repeat split; assumption.
Qed.

Lemma recent_lists_all (env : store_env) (w : world) (raw_limit : option string) (r : row) :
  store_ok env w = true ->
  In r (table w) ->
  Z.of_nat (List.length (table w)) <= limit_arg raw_limit ->
  Z.of_nat (List.length (table w)) <= 100 ->
  exists records w',
    Server.get_recent_attendance env w raw_limit
    = ({| status := 200; success := true;
          message := "Retrieved " ++ str_of_int (Z.of_nat (List.length records))
                     ++ " recent attendance records";
          data := Records records |}, w')
    /\ In (render r) records.
Proof.
  unfold store_ok. intros Hok Hin Hlim Hcap.
  apply andb_true_iff in Hok as [Hok Hstmt]. apply andb_true_iff in Hok as [Hreach Hcur].
  destruct (reachable_ensure_connected env w Hreach) as [w1 E].
  unfold Server.get_recent_attendance, AttendanceDatabase.get_recent_attendance, select_recent.
  rewrite E, Hcur, Hstmt. cbn [negb orb].
  apply ensure_connected_table in E as [Et _].
  set (limit := if limit_arg raw_limit >? 100 then 100 else limit_arg raw_limit).
  assert (Hl : Z.of_nat (List.length (table w)) <= limit).
  { unfold limit. destruct (limit_arg raw_limit >? 100); assumption. }
  replace (limit <? 0) with false by (symmetry; apply Z.ltb_ge; lia).
  eexists _, w1. split; [reflexivity|].
  apply in_map. rewrite firstn_all2.
  - apply order_desc_in. now rewrite Et.
  - rewrite order_desc_length, Et. lia.
Qed.

(** * Further properties of the service *)

(** ** Every outcome of [record_attendance] *)

(** The handler has one accepting path and otherwise answers a failure. *)
Lemma record_attendance_cases (env : store_env) (w : world) (get_json : result json) :
  (exists kvs mac v_classroom ts n w1 d,
      get_json = Ok (JDict kvs)
      /\ has_fields kvs (JStr mac) v_classroom (JStr ts)
      /\ py_int v_classroom = Ok n /\ 0 < n
      /\ is_empty (strip mac) = false
      /\ ensure_connected env w = Some w1
      /\ strptime (strip ts) = Ok d
      /\ record_attendance env w get_json
         = ({| status := 200; success := true;
               message := "Attendance recorded successfully";
               data := Echo (strip mac) n (strip ts) |},
            append_row w1 (strip mac) n d))
  \/ (exists msg, record_attendance env w get_json = (failure 400 msg, w))
  \/ (exists w', record_attendance env w get_json = (failure 500 "Internal server error", w')
                 /\ table w' = table w /\ auto_increment w' = auto_increment w)
  \/ (exists w', record_attendance env w get_json
                 = (failure 500 "Failed to record attendance in database", w')
                 /\ table w' = table w /\ auto_increment w' = auto_increment w).
Proof.
  pose proof (record_attendance_boundary env w get_json) as Hb.
  destruct (boundary_check get_json) as [r | m n t] eqn:Eb.
  - destruct (boundary_refused _ _ Eb) as [[msg ->] | ->].
    + right; left. now exists msg.
    + right; right; left. exists w. now repeat split.
  - destruct (boundary_passed _ _ _ _ Eb)
      as (kvs & mac & v2 & ts & -> & Hf & Hint & Hpos & Hmac & -> & ->).
    destruct (insert_attendance_record env w (strip mac) n (strip ts)) as [outcome w2] eqn:Hins.
    cbn [fst snd] in Hb.
    destruct outcome as [[|]|e].
    + left. destruct (insert_true_inv _ _ _ _ _ _ Hins) as (w1 & d & Hc & Hts & ->).
      destruct Hf as (H1 & H2 & H3).
      exists kvs, mac, v2, ts, n, w1, d. repeat split; assumption.
    + right; right; right. exists w2. split; [exact Hb|].
      apply (insert_refused_table _ _ _ _ _ _ _ Hins). discriminate.
    + right; right; left. exists w2. split; [exact Hb|].
      apply (insert_refused_table _ _ _ _ _ _ _ Hins). discriminate.
Qed.

(** X1.  [record_attendance] answers 200, 400 or 500 and nothing else;
    [success] is true exactly on the 200, which is the only answer that
    carries data. *)
Theorem record_attendance_status (env : store_env) (w : world) (get_json : result json) :
  let resp := fst (record_attendance env w get_json) in
  (status resp = 200 /\ success resp = true
   /\ exists mac n ts, Server.data resp = Echo mac n ts)
  \/ ((status resp = 400 \/ status resp = 500)
      /\ success resp = false /\ Server.data resp = NoData).
Proof.
  cbn zeta.
  destruct (record_attendance_cases env w get_json)
    as [(kvs & mac & v2 & ts & n & w1 & d & _ & _ & _ & _ & _ & _ & _ & E)
       | [(msg & E) | [(w' & E & _) | (w' & E & _)]]];
    rewrite E; cbn [fst status success Server.data failure].
  - left. repeat split. now exists (strip mac), n, (strip ts).
  - right. repeat split. now left.
  - right. repeat split. now right.
  - right. repeat split. now right.
Qed.

(** X2.  A request changes the table only by being accepted: on a 200
    exactly one row is appended, numbered by the counter, which moves on
    by one; on any other answer table and counter are as before, and on
    a 400 the service has not even touched its connection. *)
Theorem record_attendance_effect (env : store_env) (w : world) (get_json : result json) :
  let (resp, w') := record_attendance env w get_json in
  (status resp = 200
   /\ (exists r, table w' = (table w ++ [r])%list /\ row_id r = auto_increment w)
   /\ auto_increment w' = auto_increment w + 1)
  \/ (status resp <> 200
      /\ table w' = table w /\ auto_increment w' = auto_increment w
      /\ (status resp = 400 -> w' = w)).
Proof.
  destruct (record_attendance_cases env w get_json)
    as [(kvs & mac & v2 & ts & n & w1 & d & _ & _ & _ & _ & _ & Hc & _ & E)
       | [(msg & E) | [(w' & E & Ht & Ha) | (w' & E & Ht & Ha)]]];
    rewrite E; cbn [status failure].
  - left. apply ensure_connected_table in Hc as [Et Ea].
    cbn [append_row table auto_increment]. rewrite Et, Ea.
    split; [reflexivity|]. split; [|reflexivity].
    eexists. split; reflexivity.
  - right. repeat split; try reflexivity. discriminate.
  - right. repeat split; try assumption; discriminate.
  - right. repeat split; try assumption; discriminate.
Qed.

(** The accepting path of the handler. *)
Lemma record_attendance_accepts
  (env : store_env) (w : world) (kvs : list (string * json))
  (mac ts : string) (v_classroom : json) (n : Z) (d : datetime)
  (Hfields : has_fields kvs (JStr mac) v_classroom (JStr ts))
  (Hmac : is_empty (strip mac) = false)
  (Hint : py_int v_classroom = Ok n)
  (Hpos : 0 < n)
  (Hts : strptime (strip ts) = Ok d)
  (Hstore : store_ok env w = true) :
  let (resp, w') := record_attendance env w (Ok (JDict kvs)) in
  resp = {| status := 200; success := true;
            message := "Attendance recorded successfully";
            data := Echo (strip mac) n (strip ts) |}
  /\ table w' = (table w ++ [{| row_id := auto_increment w; row_mac := strip mac;
                                row_classroom := n; row_ts := d |}])%list
  /\ auto_increment w' = auto_increment w + 1
  /\ connection w' = Handle true.
Proof.
  rewrite (record_attendance_fields env w kvs _ _ _ Hfields).
  unfold extract_and_check. rewrite Hint, Hmac.
  replace (n <=? 0) with false by (symmetry; apply Z.leb_gt; exact Hpos).
  destruct (insert_accepted env w (strip mac) n (strip ts) d Hstore Hts) as (w1 & E & ->).
  cbn [fst snd store_answer].
  pose proof (ensure_connected_table env w w1 E) as [Et Ea].
  cbn [append_row table auto_increment connection]. rewrite Et, Ea.
  repeat split.
  unfold ensure_connected, connect in E.
  destruct (needs_connect w) eqn:Hneed.
  - destruct (on_connect env); inversion E; reflexivity.
  - inversion E; subst w1. unfold needs_connect in Hneed.
    destruct (connection w) as [|[|]]; try discriminate Hneed; reflexivity.
Qed.

(** X3.  A payload with a non-empty address, a classroom that converts
    to a positive integer and a timestamp that parses, sent while the
    store is reachable and accepts the write, is answered 200 with the
    stripped fields echoed; the row appended holds the stripped address,
    the integer and the parsed datetime, and the handle is live
    afterwards. *)
Theorem valid_payload_recorded
  (env : store_env) (w : world) (kvs : list (string * json))
  (mac ts : string) (v_classroom : json) (n : Z) (d : datetime)
  (Hfields : has_fields kvs (JStr mac) v_classroom (JStr ts))
  (Hmac : is_empty (strip mac) = false)
  (Hint : py_int v_classroom = Ok n)
  (Hpos : 0 < n)
  (Hts : strptime (strip ts) = Ok d)
  (Hstore : store_ok env w = true) :
  let (resp, w') := record_attendance env w (Ok (JDict kvs)) in
  resp = {| status := 200; success := true;
            message := "Attendance recorded successfully";
            data := Echo (strip mac) n (strip ts) |}
  /\ table w' = (table w ++ [{| row_id := auto_increment w; row_mac := strip mac;
                                row_classroom := n; row_ts := d |}])%list
  /\ auto_increment w' = auto_increment w + 1
  /\ connection w' = Handle true.
Proof.
  exact (record_attendance_accepts env w kvs mac ts v_classroom n d
           Hfields Hmac Hint Hpos Hts Hstore).
Qed.

Lemma valid_payload_recorded_witness :
  let env := {| on_connect := Connected; cursor_ok := true; statement_ok := true;
                rollback_ok := true |} in
  let w := {| connection := NoHandle; table := []; auto_increment := 7 |} in
  let kvs := [("student_mac_address", JStr " AA:BB:CC:DD:EE:99 ");
              ("classroom_id", JStr "999"); ("timestamp", JStr "2024-1-5 9:03:00")] in
  fst (record_attendance env w (Ok (JDict kvs)))
  = {| status := 200; success := true; message := "Attendance recorded successfully";
       data := Echo "AA:BB:CC:DD:EE:99" 999 "2024-1-5 9:03:00" |}.
Proof.
  intros env w kvs.
  pose proof (valid_payload_recorded env w kvs " AA:BB:CC:DD:EE:99 " "2024-1-5 9:03:00"
                (JStr "999") 999
                {| year := 2024; month := 1; day := 5; hour := 9; minute := 3; second := 0 |}
                (conj eq_refl (conj eq_refl eq_refl)) eq_refl eq_refl eq_refl eq_refl eq_refl)
    as H.
  destruct (record_attendance env w (Ok (JDict kvs))) as [resp w'].
  destruct H as [H _]. exact H.
Defined.

(** X4.  The same payload sent while the store cannot be reached, or
    refuses the cursor or the write, is answered 500, and table and
    counter are as before.  The message is that of a failed write,
    "Failed to record attendance in database", unless the store was
    reached, refused the cursor or the write, and the rollback that
    follows raised too: that exception leaves the method and is answered
    with the generic "Internal server error". *)
Theorem store_failure_is_500
  (env : store_env) (w : world) (kvs : list (string * json))
  (mac ts : string) (v_classroom : json) (n : Z) (d : datetime)
  (Hfields : has_fields kvs (JStr mac) v_classroom (JStr ts))
  (Hmac : is_empty (strip mac) = false)
  (Hint : py_int v_classroom = Ok n)
  (Hpos : 0 < n)
  (Hts : strptime (strip ts) = Ok d)
  (Hstore : store_ok env w = false) :
  let (resp, w') := record_attendance env w (Ok (JDict kvs)) in
  resp = failure 500 (if rollback_escapes env w true
                      then "Internal server error"
                      else "Failed to record attendance in database")
  /\ table w' = table w /\ auto_increment w' = auto_increment w.
Proof.
  rewrite (record_attendance_fields env w kvs _ _ _ Hfields).
  unfold extract_and_check. rewrite Hint, Hmac.
  replace (n <=? 0) with false by (symmetry; apply Z.leb_gt; exact Hpos).
  unfold insert_attendance_record, rollback_escapes, rollback_then_false.
  unfold store_ok in Hstore.
  destruct (reachable env w) eqn:Hr.
  - destruct (reachable_ensure_connected env w Hr) as [w1 E]. rewrite E.
    apply ensure_connected_table in E.
    destruct (cursor_ok env); cbn [negb andb orb] in *.
    + rewrite Hts, Hstore. cbn [negb andb fst snd].
      destruct (rollback_ok env); cbn [negb store_answer]; now split.
    + destruct (rollback_ok env); cbn [negb fst snd store_answer]; now split.
  - rewrite (unreachable_ensure_connected env w Hr). cbn [andb fst snd store_answer].
    split; [reflexivity|]. apply after_failed_connect_table.
Qed.

Lemma store_failure_is_500_witness :
  let env := {| on_connect := Connected; cursor_ok := true; statement_ok := false;
                rollback_ok := false |} in
  let down := {| on_connect := ConnectError; cursor_ok := true; statement_ok := true;
                 rollback_ok := true |} in
  let w := {| connection := Handle false; table := []; auto_increment := 7 |} in
  let kvs := [("student_mac_address", JStr "AA:BB:CC:DD:EE:99");
              ("classroom_id", JInt 999); ("timestamp", JStr "2024-01-15 09:30:00")] in
  fst (record_attendance env w (Ok (JDict kvs))) = failure 500 "Internal server error"
  /\ fst (record_attendance down w (Ok (JDict kvs)))
     = failure 500 "Failed to record attendance in database".
Proof.
  intros env down w kvs.
  pose (d := {| year := 2024; month := 1; day := 15; hour := 9; minute := 30; second := 0 |}).
  split.
  - pose proof (store_failure_is_500 env w kvs "AA:BB:CC:DD:EE:99" "2024-01-15 09:30:00"
                  (JInt 999) 999 d
                  (conj eq_refl (conj eq_refl eq_refl)) eq_refl eq_refl eq_refl eq_refl eq_refl)
      as H.
    destruct (record_attendance env w (Ok (JDict kvs))) as [resp w'].
    destruct H as [-> _]. reflexivity.
  - pose proof (store_failure_is_500 down w kvs "AA:BB:CC:DD:EE:99" "2024-01-15 09:30:00"
                  (JInt 999) 999 d
                  (conj eq_refl (conj eq_refl eq_refl)) eq_refl eq_refl eq_refl eq_refl eq_refl)
      as H.
    destruct (record_attendance down w (Ok (JDict kvs))) as [resp w'].
    destruct H as [-> _]. reflexivity.
Defined.

Lemma record_attendance_effect_witness :
  let env := {| on_connect := Connected; cursor_ok := true; statement_ok := true;
                rollback_ok := true |} in
  let w := {| connection := NoHandle; table := []; auto_increment := 7 |} in
  snd (record_attendance env w (Ok (JDict [("timestamp", JStr "x")]))) = w.
Proof.
  intros env w.
  pose proof (record_attendance_effect env w (Ok (JDict [("timestamp", JStr "x")]))) as H.
  destruct (record_attendance env w (Ok (JDict [("timestamp", JStr "x")]))) as [resp w'] eqn:E.
  destruct H as [(H & _) | (_ & _ & _ & H)].
  - vm_compute in E. injection E as <- _. discriminate H.
  - apply H. vm_compute in E. injection E as <- _. reflexivity.
Defined.

(** ** What is stored *)

Lemma lstrip_no_lead (s : string) : no_lead (lstrip s).
Proof.
  induction s as [|c s IH]; simpl; [exact I|].
  destruct (is_space c) eqn:E; [exact IH | exact E].
Qed.

Lemma lstrip_fixed (s : string) : no_lead s -> lstrip s = s.
Proof.
  destruct s as [|c s]; simpl; [reflexivity|]. now intros ->.
Qed.

Lemma rstrip_no_lead (s : string) : no_lead s -> no_lead (rstrip s).
Proof.
  destruct s as [|c s]; cbn [rstrip no_lead]; [trivial|].
  intros H. rewrite H, andb_false_r. exact H.
Qed.

Lemma rstrip_idempotent (s : string) : rstrip (rstrip s) = rstrip s.
Proof.
  induction s as [|c s IH]; [reflexivity|].
  cbn [rstrip]. destruct (is_empty (rstrip s) && is_space c) eqn:E; [reflexivity|].
  cbn [rstrip]. now rewrite IH, E.
Qed.

Lemma strip_idempotent (s : string) : strip (strip s) = strip s.
Proof.
  unfold strip.
  rewrite (lstrip_fixed (rstrip (lstrip s))) by (apply rstrip_no_lead, lstrip_no_lead).
  apply rstrip_idempotent.
Qed.

Lemma strptime_valid (s : string) (d : datetime) : strptime s = Ok d -> valid d = true.
Proof.
  unfold strptime. destruct (regex_match s) as [[d' rest]|]; [|discriminate].
  destruct (negb (is_empty rest)); [discriminate|].
  destruct (valid d') eqn:V; [|discriminate]. now intros [= <-].
Qed.

(** X5.  The invariant of the stored rows is kept by every request:
    if each row of the table has a positive classroom, a non-empty
    address without blanks around it and a timestamp that is a real date
    and time, then so has each row after [record_attendance], whatever
    the payload and whatever the store answers. *)
Theorem stored_rows_stay_well_formed (env : store_env) (w : world) (get_json : result json)
  (Hinv : Forall row_ok (table w)) :
  Forall row_ok (table (snd (record_attendance env w get_json))).
Proof.
  destruct (record_attendance_cases env w get_json)
    as [(kvs & mac & v2 & ts & n & w1 & d & _ & _ & _ & Hpos & Hmac & Hc & Hts & E)
       | [(msg & E) | [(w' & E & Ht & _) | (w' & E & Ht & _)]]];
    rewrite E; cbn [snd]; try assumption.
  - apply ensure_connected_table in Hc as [Et _].
    cbn [append_row table]. rewrite Et. apply Forall_app. split; [assumption|].
    constructor; [|constructor].
    unfold row_ok. cbn [row_classroom row_mac row_ts].
    repeat split; [assumption | assumption | apply strip_idempotent |].
    exact (strptime_valid _ _ Hts).
  - now rewrite Ht.
  - now rewrite Ht.
Qed.

Lemma stored_rows_stay_well_formed_witness :
  let env := {| on_connect := Connected; cursor_ok := true; statement_ok := true;
                rollback_ok := true |} in
  let w := {| connection := NoHandle; table := []; auto_increment := 1 |} in
  let kvs := [("student_mac_address", JStr " AA:BB:CC:DD:EE:99 ");
              ("classroom_id", JStr "999"); ("timestamp", JStr "2024-1-5 9:03:00")] in
  Forall row_ok [{| row_id := 1; row_mac := "AA:BB:CC:DD:EE:99"; row_classroom := 999;
                    row_ts := {| year := 2024; month := 1; day := 5;
                                 hour := 9; minute := 3; second := 0 |} |}].
Proof.
  intros env w kvs.
  exact (stored_rows_stay_well_formed env w (Ok (JDict kvs)) (Forall_nil row_ok)).
Defined.

(** X6.  The handler reads the three required fields and nothing else:
    two objects in which these fields have the same values are answered
    alike and leave the same world, whatever other members they have and
    in whatever order. *)
Theorem other_members_are_ignored
  (env : store_env) (w : world) (kvs kvs' : list (string * json))
  (v_mac v_classroom v_timestamp : json)
  (H : has_fields kvs v_mac v_classroom v_timestamp)
  (H' : has_fields kvs' v_mac v_classroom v_timestamp) :
  record_attendance env w (Ok (JDict kvs)) = record_attendance env w (Ok (JDict kvs')).
Proof.
  unfold record_attendance.
  now rewrite (record_attendance_body_fields env w kvs _ _ _ H),
              (record_attendance_body_fields env w kvs' _ _ _ H').
Qed.

Lemma other_members_are_ignored_witness :
  let env := {| on_connect := Connected; cursor_ok := true; statement_ok := true;
                rollback_ok := true |} in
  let w := {| connection := NoHandle; table := []; auto_increment := 1 |} in
  record_attendance env w
    (Ok (JDict [("student_mac_address", JStr "AA:BB"); ("classroom_id", JInt 101);
            ("timestamp", JStr "2024-01-15 09:30:00")]))
  = record_attendance env w
      (Ok (JDict [("rssi", JInt (-60)); ("timestamp", JStr "2024-01-15 09:30:00");
              ("classroom_id", JInt 7); ("student_mac_address", JStr "AA:BB");
              ("classroom_id", JInt 101)])).
Proof.
  intros env w.
  apply (other_members_are_ignored env w _ _ (JStr "AA:BB") (JInt 101)
           (JStr "2024-01-15 09:30:00")); repeat split.
Defined.

(** X7.  Nothing is deduplicated: the same valid payload sent twice,
    the store accepting both writes, is answered 200 twice and leaves
    two rows that differ only in their number. *)
Theorem repeated_sighting_stored_twice
  (env : store_env) (w : world) (kvs : list (string * json))
  (mac ts : string) (v_classroom : json) (n : Z) (d : datetime)
  (Hfields : has_fields kvs (JStr mac) v_classroom (JStr ts))
  (Hmac : is_empty (strip mac) = false)
  (Hint : py_int v_classroom = Ok n)
  (Hpos : 0 < n)
  (Hts : strptime (strip ts) = Ok d)
  (Hstore : store_ok env w = true) :
  let (resp1, w1) := record_attendance env w (Ok (JDict kvs)) in
  let (resp2, w2) := record_attendance env w1 (Ok (JDict kvs)) in
  status resp1 = 200 /\ status resp2 = 200
  /\ table w2 = (table w ++ [{| row_id := auto_increment w; row_mac := strip mac;
                                row_classroom := n; row_ts := d |};
                             {| row_id := auto_increment w + 1; row_mac := strip mac;
                                row_classroom := n; row_ts := d |}])%list.
Proof.
  pose proof (record_attendance_accepts env w kvs mac ts v_classroom n d
                Hfields Hmac Hint Hpos Hts Hstore) as H1.
  destruct (record_attendance env w (Ok (JDict kvs))) as [resp1 w1].
  destruct H1 as (-> & Ht1 & Ha1 & Hc1).
  assert (Hstore1 : store_ok env w1 = true).
  { unfold store_ok, reachable, needs_connect in *. rewrite Hc1. cbn [negb orb].
    apply andb_true_iff in Hstore as [Hs1 Hs2]. apply andb_true_iff in Hs1 as [_ Hs1].
    now rewrite Hs1, Hs2. }
  pose proof (record_attendance_accepts env w1 kvs mac ts v_classroom n d
                Hfields Hmac Hint Hpos Hts Hstore1) as H2.
  destruct (record_attendance env w1 (Ok (JDict kvs))) as [resp2 w2].
  destruct H2 as (-> & Ht2 & _ & _).
  repeat split. rewrite Ht2, Ht1, Ha1, <- app_assoc. reflexivity.
Qed.

Lemma repeated_sighting_stored_twice_witness :
  let env := {| on_connect := Connected; cursor_ok := true; statement_ok := true;
                rollback_ok := true |} in
  let w := {| connection := NoHandle; table := []; auto_increment := 1 |} in
  let payload := Ok (JDict [("student_mac_address", JStr "AA:BB:CC:DD:EE:99");
                            ("classroom_id", JInt 101);
                            ("timestamp", JStr "2024-01-15 09:30:00")]) in
  List.length (table (snd (record_attendance env
                             (snd (record_attendance env w payload)) payload))) = 2%nat.
Proof.
  intros env w payload.
  pose proof (repeated_sighting_stored_twice env w
                [("student_mac_address", JStr "AA:BB:CC:DD:EE:99");
                 ("classroom_id", JInt 101); ("timestamp", JStr "2024-01-15 09:30:00")]
                "AA:BB:CC:DD:EE:99" "2024-01-15 09:30:00" (JInt 101) 101
                {| year := 2024; month := 1; day := 15; hour := 9; minute := 30; second := 0 |}
                (conj eq_refl (conj eq_refl eq_refl)) eq_refl eq_refl eq_refl eq_refl eq_refl)
    as H.
  fold payload in H.
  destruct (record_attendance env w payload) as [resp1 w1].
  cbn [snd].
  destruct (record_attendance env w1 payload) as [resp2 w2].
  cbn [snd]. destruct H as (_ & _ & ->). reflexivity.
Defined.

(** ** Reading back *)

Lemma insert_desc_perm (r : row) (l : list row) : Permutation (insert_desc r l) (r :: l).
Proof.
  induction l as [|x l IH]; simpl; [reflexivity|].
  destruct (sort_key (row_ts x) <=? sort_key (row_ts r)); [reflexivity|].
  rewrite IH. apply perm_swap.
Qed.

Lemma order_desc_perm (l : list row) : Permutation (order_desc l) l.
Proof.
  induction l as [|x l IH]; simpl; [reflexivity|].
  rewrite insert_desc_perm. now constructor.
Qed.

Lemma insert_desc_sorted (r : row) (l : list row) :
  StronglySorted not_older l -> StronglySorted not_older (insert_desc r l).
Proof.
  induction l as [|x l IH]; intros Hs; simpl.
  - constructor; constructor.
  - inversion Hs as [|? ? Hl Hx]; subst.
    destruct (sort_key (row_ts x) <=? sort_key (row_ts r)) eqn:E.
    + apply Z.leb_le in E. constructor; [assumption|].
      constructor; [exact E|].
      eapply Forall_impl; [|exact Hx]. unfold not_older. intros y Hy. lia.
    + apply Z.leb_gt in E. constructor; [now apply IH|].
      eapply Permutation_Forall; [symmetry; apply insert_desc_perm|].
      constructor; [unfold not_older; lia | exact Hx].
Qed.

Lemma order_desc_sorted (l : list row) : StronglySorted not_older (order_desc l).
Proof.
  induction l as [|x l IH]; simpl; [constructor | now apply insert_desc_sorted].
Qed.

(** X8.  [GET /api/attendance/recent] always answers 200 with
    [success] true and never changes table or counter; the message
    states the number of records returned, and that number is at most
    100, at most the number of rows stored and, for a limit that is not
    negative, at most the limit asked for. *)
Theorem recent_listing_is_bounded (env : store_env) (w : world) (raw_limit : option string) :
  let (resp, w') := Server.get_recent_attendance env w raw_limit in
  status resp = 200 /\ success resp = true
  /\ table w' = table w /\ auto_increment w' = auto_increment w
  /\ exists records,
       Server.data resp = Records records
       /\ message resp = "Retrieved " ++ str_of_int (Z.of_nat (List.length records))
                         ++ " recent attendance records"
       /\ (List.length records <= 100)%nat
       /\ (List.length records <= List.length (table w))%nat
       /\ Z.of_nat (List.length records) <= Z.max 0 (limit_arg raw_limit).
Proof.
  unfold Server.get_recent_attendance.
  set (limit := if limit_arg raw_limit >? 100 then 100 else limit_arg raw_limit).
  assert (Hl : limit <= 100 /\ limit <= limit_arg raw_limit).
  { unfold limit. destruct (limit_arg raw_limit >? 100) eqn:E; [apply Z.gtb_lt in E | ]; [lia|].
    pose proof (Zgt_cases (limit_arg raw_limit) 100) as G. rewrite E in G. lia. }
  pose proof (db_get_recent_cases env w limit) as H.
  destruct (AttendanceDatabase.get_recent_attendance env w limit) as [records w'].
  destruct H as (Ht & Ha & Hrec).
  cbn [status success Server.data message].
  repeat split; try assumption.
  exists records. split; [reflexivity|]. split; [reflexivity|].
  destruct Hrec as [[-> _] | (-> & _ & Hpos)].
  - cbn [List.length]. repeat split; lia.
  - rewrite length_map, length_firstn, order_desc_length. repeat split; lia.
Qed.

(** X9.  The records returned are the most recent rows, newest first:
    they are the renderings of rows that, followed by the rows left
    out, form a rearrangement of the table in which no row is older than
    a row after it.  When the store answers and the limit is not
    negative, their number is the smaller of the limit (capped at 100)
    and the size of the table. *)
Theorem recent_listing_is_newest_first
  (env : store_env) (w : world) (raw_limit : option string) :
  exists rows rest,
    Server.data (fst (Server.get_recent_attendance env w raw_limit))
    = Records (map render rows)
    /\ Permutation (rows ++ rest) (table w)
    /\ StronglySorted not_older (rows ++ rest)
    /\ (store_ok env w = true -> 0 <= limit_arg raw_limit ->
        List.length rows
        = Nat.min (Z.to_nat (Z.min (limit_arg raw_limit) 100)) (List.length (table w))).
Proof.
  unfold Server.get_recent_attendance.
  set (limit := if limit_arg raw_limit >? 100 then 100 else limit_arg raw_limit).
  assert (Hl : limit = Z.min (limit_arg raw_limit) 100).
  { unfold limit. pose proof (Zgt_cases (limit_arg raw_limit) 100) as G.
    destruct (limit_arg raw_limit >? 100); lia. }
  pose proof (db_get_recent_cases env w limit) as H.
  destruct (AttendanceDatabase.get_recent_attendance env w limit) as [records w'].
  destruct H as (_ & _ & Hrec). cbn [fst Server.data].
  destruct Hrec as [[-> Hwhy] | (-> & Hok & Hpos)].
  - exists [], (order_desc (table w)). cbn [map app].
    split; [reflexivity|]. split; [apply order_desc_perm|].
    split; [apply order_desc_sorted|].
    intros Hok Hnn. destruct Hwhy as [Hno | Hneg]; [congruence | lia].
  - exists (firstn (Z.to_nat limit) (order_desc (table w))),
           (skipn (Z.to_nat limit) (order_desc (table w))).
    split; [reflexivity|]. rewrite firstn_skipn.
    split; [apply order_desc_perm|]. split; [apply order_desc_sorted|].
    intros _ _. now rewrite length_firstn, order_desc_length, Hl.
Qed.

Lemma recent_listing_is_newest_first_witness :
  let env := {| on_connect := Connected; cursor_ok := true; statement_ok := true;
                rollback_ok := true |} in
  let r := fun i h =>
             {| row_id := i; row_mac := "AA:BB:CC:DD:EE:99"; row_classroom := 101;
                row_ts := {| year := 2024; month := 1; day := 15;
                             hour := h; minute := 30; second := 0 |} |} in
  let w := {| connection := NoHandle; table := [r 1 9; r 2 11; r 3 10];
              auto_increment := 4 |} in
  Server.data (fst (Server.get_recent_attendance env w (Some "2")))
  = Records [render (r 2 11); render (r 3 10)]
  /\ exists rows rest,
       Server.data (fst (Server.get_recent_attendance env w (Some "2")))
       = Records (map render rows)
       /\ Permutation (rows ++ rest) (table w)
       /\ List.length rows = 2%nat.
Proof.
  intros env r w. split; [reflexivity|].
  destruct (recent_listing_is_newest_first env w (Some "2"))
    as (rows & rest & H1 & H2 & _ & H4).
  exists rows, rest. repeat split; try assumption.
  rewrite (H4 eq_refl ltac:(vm_compute; discriminate)). reflexivity.
Defined.

(** ** Rendering and parsing datetimes *)

Lemma digit_char_is_digit (k : Z) :
  0 <= k <= 9 -> is_digit (digit_char k) = true /\ digit_val (digit_char k) = k.
Proof.
  intros H.
  assert (E : k = 0 \/ k = 1 \/ k = 2 \/ k = 3 \/ k = 4 \/ k = 5 \/ k = 6 \/ k = 7
              \/ k = 8 \/ k = 9) by lia.
  destruct E as [E|[E|[E|[E|[E|[E|[E|[E|[E|E]]]]]]]]]; subst k; split; reflexivity.
Qed.

Lemma format_0d_2_small (n : Z) :
  0 <= n < 100 ->
  format_0d 2 n = String (digit_char (n / 10)) (String (digit_char (n mod 10)) "").
Proof.
  intros Hn. unfold format_0d, dec.
  replace (n <? 0) with false by (symmetry; apply Z.ltb_ge; lia).
  destruct (Z_lt_le_dec n 10) as [H1|H1].
  - rewrite dec_loop_last by lia.
    replace (n / 10) with 0 by (Z.div_mod_to_equations; lia). reflexivity.
  - destruct (log2_fuel n 10 1) as [f ->]; [lia | lia | vm_compute; lia |].
    cbn [Nat.add]. rewrite dec_loop_more by lia.
    rewrite dec_loop_last by (Z.div_mod_to_equations; lia).
    replace (n / 10 mod 10) with (n / 10) by (Z.div_mod_to_equations; lia).
    reflexivity.
Qed.

Lemma two_digit_field (k : Z) :
  0 <= k < 100 ->
  exists a b, format_0d 2 k = String a (String b "")
              /\ is_digit a = true /\ is_digit b = true /\ num2 a b = k.
Proof.
  intros Hk. exists (digit_char (k / 10)), (digit_char (k mod 10)).
  destruct (digit_char_is_digit (k / 10)) as [Ha Va]; [Z.div_mod_to_equations; lia|].
  destruct (digit_char_is_digit (k mod 10)) as [Hb Vb]; [Z.div_mod_to_equations; lia|].
  repeat split; try assumption.
  - now apply format_0d_2_small.
  - unfold num2. rewrite Va, Vb. Z.div_mod_to_equations; lia.
Qed.

Lemma four_digit_field (k : Z) :
  0 <= k < 10000 ->
  exists a b c d, format_0d 4 k = String a (String b (String c (String d "")))
                  /\ is_digit a = true /\ is_digit b = true
                  /\ is_digit c = true /\ is_digit d = true /\ num4 a b c d = k.
Proof.
  intros Hk.
  exists (digit_char (k / 1000)), (digit_char (k / 100 mod 10)),
         (digit_char (k / 10 mod 10)), (digit_char (k mod 10)).
  destruct (digit_char_is_digit (k / 1000)) as [Ha Va]; [Z.div_mod_to_equations; lia|].
  destruct (digit_char_is_digit (k / 100 mod 10)) as [Hb Vb]; [Z.div_mod_to_equations; lia|].
  destruct (digit_char_is_digit (k / 10 mod 10)) as [Hc Vc]; [Z.div_mod_to_equations; lia|].
  destruct (digit_char_is_digit (k mod 10)) as [Hd Vd]; [Z.div_mod_to_equations; lia|].
  repeat split; try assumption.
  - now apply format_0d_4_small.
  - unfold num4. rewrite Va, Vb, Vc, Vd. Z.div_mod_to_equations; lia.
Qed.

Lemma between_bounds (lo hi n : Z) : between lo hi n = true -> lo <= n <= hi.
Proof.
  unfold between. intros H. apply andb_true_iff in H as [H1 H2].
  apply Z.leb_le in H1. apply Z.leb_le in H2. lia.
Qed.

Lemma valid_bounds (d : datetime) :
  valid d = true ->
  0 <= year d < 10000 /\ 0 <= month d < 100 /\ 0 <= day d < 100
  /\ 0 <= hour d < 100 /\ 0 <= minute d < 100 /\ 0 <= second d < 100.
Proof.
  unfold valid. intros H.
  repeat match goal with
         | E : _ && _ = true |- _ => apply andb_true_iff in E; destruct E
         end.
  repeat match goal with
         | E : between _ _ _ = true |- _ => apply between_bounds in E
         end.
  pose proof (days_in_month_le_31 (year d) (month d)). lia.
Qed.

(** The parse of nineteen characters of the fixed shape. *)
Lemma strptime_of_digits (y1 y2 y3 y4 m1 m2 d1 d2 h1 h2 n1 n2 s1 s2 : ascii) :
  forallb is_digit [y1; y2; y3; y4; m1; m2; d1; d2; h1; h2; n1; n2; s1; s2] = true ->
  valid {| year := num4 y1 y2 y3 y4; month := num2 m1 m2; day := num2 d1 d2;
           hour := num2 h1 h2; minute := num2 n1 n2; second := num2 s1 s2 |} = true ->
  strptime
    (String y1 (String y2 (String y3 (String y4 (String "-"
    (String m1 (String m2 (String "-" (String d1 (String d2 (String " "
    (String h1 (String h2 (String ":" (String n1 (String n2 (String ":"
    (String s1 (String s2 "")))))))))))))))))))
  = Ok {| year := num4 y1 y2 y3 y4; month := num2 m1 m2; day := num2 d1 d2;
          hour := num2 h1 h2; minute := num2 n1 n2; second := num2 s1 s2 |}.
Proof.
  intros Hd Hv. cbn [forallb] in Hd.
  repeat match goal with
         | E : _ && _ = true |- _ => apply andb_true_iff in E; destruct E
         end.
  pose proof Hv as V. unfold valid in V. cbn [year month day hour minute second] in V.
  repeat match goal with
         | E : _ && _ = true |- _ => apply andb_true_iff in E; destruct E
         end.
  unfold strptime, regex_match.
  rewrite re_Y_four by assumption. rewrite lit_same.
  erewrite re_m_two; try eassumption; cycle 1.
  { rewrite lit_same.
    apply re_d_two; try assumption;
      [| eapply between_weaken; [apply days_in_month_le_31 | eassumption]].
    rewrite ws_plus_one_space by assumption.
    apply re_H_two; try assumption. rewrite lit_same.
    apply re_M_two; try assumption. rewrite lit_same.
    apply re_S_two; try assumption. reflexivity. }
  cbn [is_empty negb]. now rewrite Hv.
Qed.

(** The text with the year on four digits, as the scanner writes it,
    is of the fixed format and parses back. *)
Lemma padded_text_parses (d : datetime) (Hvalid : valid d = true) :
  fixed_format (padded_text d) = true /\ strptime (padded_text d) = Ok d.
Proof.
  destruct (valid_bounds d Hvalid) as (By & Bm & Bd & Bh & Bn & Bs).
  destruct (four_digit_field (year d) By) as (y1 & y2 & y3 & y4 & Ey & ? & ? & ? & ? & Vy).
  destruct (two_digit_field (month d) Bm) as (m1 & m2 & Em & ? & ? & Vm).
  destruct (two_digit_field (day d) Bd) as (d1 & d2 & Ed & ? & ? & Vd).
  destruct (two_digit_field (hour d) Bh) as (h1 & h2 & Eh & ? & ? & Vh).
  destruct (two_digit_field (minute d) Bn) as (n1 & n2 & En & ? & ? & Vn).
  destruct (two_digit_field (second d) Bs) as (s1 & s2 & Es & ? & ? & Vs).
  unfold padded_text. rewrite Ey, Em, Ed, Eh, En, Es. cbn [append].
  assert (Hdig : forallb is_digit [y1; y2; y3; y4; m1; m2; d1; d2; h1; h2; n1; n2; s1; s2]
                 = true).
  { cbn [forallb].
    repeat match goal with
           | E : is_digit _ = true |- _ => rewrite E; clear E
           end. reflexivity. }
  assert (Hv : valid {| year := num4 y1 y2 y3 y4; month := num2 m1 m2; day := num2 d1 d2;
                        hour := num2 h1 h2; minute := num2 n1 n2; second := num2 s1 s2 |}
               = true).
  { rewrite Vy, Vm, Vd, Vh, Vn, Vs. now destruct d. }
  split.
  - cbn [fixed_format]. rewrite Hdig, Hv. reflexivity.
  - rewrite (strptime_of_digits _ _ _ _ _ _ _ _ _ _ _ _ _ _ Hdig Hv).
    rewrite Vy, Vm, Vd, Vh, Vn, Vs. now destruct d.
Qed.

(** From year 1000 on [strftime] writes the padded text. *)
Lemma strftime_padded (d : datetime) :
  valid d = true -> 1000 <= year d -> strftime d = padded_text d.
Proof.
  intros Hv Hy. destruct (valid_bounds d Hv) as (By & _).
  unfold strftime, padded_text. now rewrite str_of_int_four_digits by lia.
Qed.

(** A rendered year of fewer than four digits stops the expression of
    [strptime] at the hyphen. *)
Lemma short_year_does_not_match (y : Z) (rest : string) :
  0 <= y < 1000 -> regex_match (str_of_int y ++ String "-" rest) = None.
Proof.
  intros Hy. unfold str_of_int, dec.
  replace (y <? 0) with false by (symmetry; apply Z.ltb_ge; lia).
  assert (Hd : forall k, 0 <= k <= 9 ->
                 between (code "0") (code "9") (code (digit_char k)) = true).
  { intros k Hk. exact (proj1 (digit_char_is_digit k Hk)). }
  destruct (Z_lt_le_dec y 10) as [H1|H1]; [|destruct (Z_lt_le_dec y 100) as [H2|H2]].
  - rewrite dec_loop_last by lia. cbn [append].
    unfold regex_match, re_Y, cls.
    rewrite Hd by (Z.div_mod_to_equations; lia). reflexivity.
  - destruct (log2_fuel y 10 1) as [f ->]; [lia | lia | vm_compute; lia |].
    cbn [Nat.add]. rewrite dec_loop_more by lia.
    rewrite dec_loop_last by (Z.div_mod_to_equations; lia). cbn [append].
    unfold regex_match, re_Y, cls.
    rewrite !Hd by (Z.div_mod_to_equations; lia). reflexivity.
  - destruct (log2_fuel y 100 2) as [f ->]; [lia | lia | vm_compute; lia |].
    cbn [Nat.add]. rewrite !dec_loop_more by (Z.div_mod_to_equations; lia).
    rewrite dec_loop_last by (Z.div_mod_to_equations; lia). cbn [append].
    unfold regex_match, re_Y, cls.
    rewrite !Hd by (Z.div_mod_to_equations; lia). reflexivity.
Qed.

(** Rendering then parsing, by the year. *)
Lemma strftime_strptime (d : datetime) (Hvalid : valid d = true) :
  (1000 <= year d ->
   fixed_format (strftime d) = true /\ strptime (strftime d) = Ok d)
  /\ (year d < 1000 -> exists e, strptime (strftime d) = Raise e).
Proof.
  split.
  - intros Hy. rewrite (strftime_padded d Hvalid Hy). exact (padded_text_parses d Hvalid).
  - intros Hy. destruct (valid_bounds d Hvalid) as (By & _).
    unfold strptime.
    replace (regex_match (strftime d)) with (@None (datetime * string)); [now eexists|].
    symmetry. unfold strftime. cbn [append].
    apply short_year_does_not_match. lia.
Qed.

(** C5, counterexample: the timestamp "0999-01-15 09:30:00" is of the
    fixed format and the request is accepted, echoing it as it is; but the
    record read back shows it as "999-01-15 09:30:00": the rendering of
    the year does not give back its leading zero. *)
Lemma year_999_reads_back_shorter :
  let env := {| on_connect := Connected; cursor_ok := true; statement_ok := true;
                rollback_ok := true |} in
  let w := {| connection := NoHandle; table := []; auto_increment := 1 |} in
  let posted := record_attendance env w
                  (Ok (JDict [("student_mac_address", JStr "AA:BB:CC:DD:EE:99");
                              ("classroom_id", JInt 999);
                              ("timestamp", JStr "0999-01-15 09:30:00")])) in
  fixed_format "0999-01-15 09:30:00" = true
  /\ fst posted = recorded "AA:BB:CC:DD:EE:99" 999 "0999-01-15 09:30:00"
  /\ listed (fst (Server.get_recent_attendance env (snd posted) None))
     = [{| id := 1; AttendanceDatabase.student_mac_address := "AA:BB:CC:DD:EE:99";
           AttendanceDatabase.classroom_id := 999;
           entry_timestamp := "999-01-15 09:30:00" |}].
Proof.
  repeat split.
Qed.

(** C5, as the code has it.  Take a request that was accepted (answered
    200) and whose timestamp field is a string [s] of the fixed format.
    Then [s] is echoed as it is in the answer; [s] parses to a datetime
    [d]; the table grew by the one row holding [d]; a later read of
    recent records that reaches the whole table returns the record of
    that row with the rendering of [d] as its [entry_timestamp]; and
    that rendering is [s] itself when the year of [s] is 1000 or later,
    and differs from [s] when it is earlier. *)
Theorem timestamp_round_trip
  (env : store_env) (w w' : world) (data : json) (resp : response) (s : string)
  (Hrun : record_attendance env w (Ok data) = (resp, w'))
  (Haccepted : status resp = 200)
  (Hfield : getitem data "timestamp" = Ok (JStr s))
  (Hformat : fixed_format s = true) :
  exists (mac : string) (n : Z) (d : datetime),
    Server.data resp = Echo mac n s
    /\ strptime s = Ok d
    /\ table w' = (table w ++ [{| row_id := auto_increment w; row_mac := mac;
                                  row_classroom := n; row_ts := d |}])%list
    /\ (forall env' raw_limit,
         store_ok env' w' = true ->
         Z.of_nat (List.length (table w')) <= limit_arg raw_limit ->
         Z.of_nat (List.length (table w')) <= 100 ->
         exists records w'',
           Server.get_recent_attendance env' w' raw_limit
           = ({| status := 200; success := true;
                 message := "Retrieved " ++ str_of_int (Z.of_nat (List.length records))
                            ++ " recent attendance records";
                 data := Records records |}, w'')
           /\ In {| id := auto_increment w; AttendanceDatabase.student_mac_address := mac;
                    AttendanceDatabase.classroom_id := n;
                    entry_timestamp := strftime d |} records)
    /\ (1000 <= year_of_text s -> strftime d = s)
    /\ (year_of_text s < 1000 -> strftime d <> s).
Proof.
  destruct (accepted_inv env w w' (Ok data) resp Hrun Haccepted)
    as (kvs & mac & v2 & ts & n & w1 & d & Hd & (H1 & H2 & H3) & Hint & Hpos & Hc & Hts
        & Hecho & ->).
  injection Hd as ->.
  cbn [getitem] in Hfield. rewrite H3 in Hfield. injection Hfield as ->.
  destruct (fixed_format_round_trip s Hformat) as (d' & Hparse & Hyear & Hstrip & Hrender).
  rewrite Hstrip in Hts, Hecho. rewrite Hparse in Hts. injection Hts as ->.
  apply ensure_connected_table in Hc as [Et Ea].
  exists (strip mac), n, d. repeat apply conj; try assumption.
  - cbn [append_row table]. now rewrite Et, Ea.
  - intros env' raw_limit Hok Hlim Hcap.
    set (r := {| row_id := auto_increment w; row_mac := strip mac;
                 row_classroom := n; row_ts := d |}).
    destruct (recent_lists_all env' (append_row w1 (strip mac) n d) raw_limit r Hok)
      as (records & w'' & E & Hin); try assumption.
    + cbn [append_row table]. apply in_or_app. right. left. unfold r. now rewrite Ea.
    + exists records, w''. split; [exact E|]. exact Hin.
  - intros Hy. apply Hrender. now rewrite Hyear.
  - intros Hy Heq.
    destruct (proj2 (strftime_strptime d (strptime_valid s d Hparse))) as [e He];
      [now rewrite Hyear|].
    rewrite Heq, Hparse in He. discriminate He.
Qed.

Lemma timestamp_round_trip_witness :
  let env := {| on_connect := Connected; cursor_ok := true; statement_ok := true;
                rollback_ok := true |} in
  let w := {| connection := NoHandle; table := []; auto_increment := 1 |} in
  let data := JDict [("student_mac_address", JStr "AA:BB:CC:DD:EE:99");
                     ("classroom_id", JInt 999);
                     ("timestamp", JStr "2024-01-15 09:30:00")] in
  exists (mac : string) (n : Z) (d : datetime),
    Server.data (fst (record_attendance env w (Ok data))) = Echo mac n "2024-01-15 09:30:00"
    /\ strptime "2024-01-15 09:30:00" = Ok d
    /\ strftime d = "2024-01-15 09:30:00".
Proof.
  intros env w data.
  destruct (timestamp_round_trip env w (snd (record_attendance env w (Ok data))) data
              (fst (record_attendance env w (Ok data))) "2024-01-15 09:30:00"
              eq_refl eq_refl eq_refl eq_refl)
    as (mac & n & d & H1 & H2 & _ & _ & H5 & _).
  exists mac, n, d. repeat split; try assumption.
  apply H5. vm_compute. discriminate.
Defined.

(** X10.  Rendering then parsing is the identity on the datetimes from
    year 1000 on: for such a real date and time, [strftime] gives a
    string of the fixed format and [strptime] of that string gives the
    datetime back.  For an earlier year the rendering has fewer than four
    digits of year and [strptime] refuses it. *)
Theorem render_then_parse (d : datetime) (Hvalid : valid d = true) :
  (1000 <= year d ->
   fixed_format (strftime d) = true /\ strptime (strftime d) = Ok d)
  /\ (year d < 1000 -> exists e, strptime (strftime d) = Raise e).
Proof.
  exact (strftime_strptime d Hvalid).
Qed.

Lemma render_then_parse_witness :
  strptime (strftime {| year := 2024; month := 2; day := 29;
                        hour := 23; minute := 59; second := 7 |})
  = Ok {| year := 2024; month := 2; day := 29; hour := 23; minute := 59; second := 7 |}
  /\ exists e, strptime (strftime {| year := 999; month := 1; day := 15;
                                     hour := 9; minute := 30; second := 0 |}) = Raise e.
Proof.
  split.
  - refine (proj2 (proj1 (render_then_parse
                    {| year := 2024; month := 2; day := 29;
                       hour := 23; minute := 59; second := 7 |} eq_refl) _)).
    vm_compute. discriminate.
  - exact (proj2 (render_then_parse
                    {| year := 999; month := 1; day := 15; hour := 9; minute := 30; second := 0 |}
                    eq_refl) eq_refl).
Defined.

(** What the service makes of the scanner's timestamp. *)
Lemma get_current_timestamp_parses (reading : result rtc_tuple)
  (Hclock : forall t, reading = Ok t -> valid (datetime_of_rtc t) = true) :
  fixed_format (get_current_timestamp reading) = true
  /\ strptime (get_current_timestamp reading)
     = Ok (match reading with
           | Ok t => datetime_of_rtc t
           | Raise _ => {| year := 1970; month := 1; day := 1;
                           hour := 0; minute := 0; second := 0 |}
           end).
Proof.
  destruct reading as [t|e].
  - exact (padded_text_parses (datetime_of_rtc t) (Hclock t eq_refl)).
  - split; reflexivity.
Qed.

(** X11.  The timestamp the scanner puts in a sighting is one the
    service accepts: when the clock hands over fields that name a real
    date and time, [get_current_timestamp] gives a string of the fixed
    format which the service parses to these very fields; when the clock
    raises, the sentinel is parsed to 1 January 1970, midnight. *)
Theorem scanner_timestamp_is_accepted (reading : result rtc_tuple)
  (Hclock : forall t, reading = Ok t -> valid (datetime_of_rtc t) = true) :
  fixed_format (get_current_timestamp reading) = true
  /\ strptime (get_current_timestamp reading)
     = Ok (match reading with
           | Ok t => datetime_of_rtc t
           | Raise _ => {| year := 1970; month := 1; day := 1;
                           hour := 0; minute := 0; second := 0 |}
           end).
Proof.
  exact (get_current_timestamp_parses reading Hclock).
Qed.

Lemma scanner_timestamp_is_accepted_witness :
  strptime (get_current_timestamp
              (Ok {| rtc_year := 2024; rtc_month := 1; rtc_day := 15; rtc_weekday := 0;
                     rtc_hours := 9; rtc_minutes := 30; rtc_seconds := 0;
                     rtc_subseconds := 0 |}))
  = Ok {| year := 2024; month := 1; day := 15; hour := 9; minute := 30; second := 0 |}.
Proof.
  refine (proj2 (scanner_timestamp_is_accepted
                   (Ok {| rtc_year := 2024; rtc_month := 1; rtc_day := 15; rtc_weekday := 0;
                          rtc_hours := 9; rtc_minutes := 30; rtc_seconds := 0;
                          rtc_subseconds := 0 |}) _)).
  intros t [= <-]. reflexivity.
Defined.

(** * Further properties of the scanner *)

(** ** The address as text *)

Lemma all_chars_append (p : ascii -> bool) (a b : string) :
  all_chars p (a ++ b) = all_chars p a && all_chars p b.
Proof.
  induction a as [|c a IH]; simpl; [reflexivity|]. now rewrite IH, andb_assoc.
Qed.

Lemma format_02x_chars (b : byte) : all_chars is_mac_char (format_02x b) = true.
Proof.
  destruct b; reflexivity.
Qed.

Lemma format_02x_decode (b : byte) : unhex (format_02x b) = Some b.
Proof.
  destruct b; reflexivity.
Qed.

Lemma format_02x_shape (b : byte) :
  exists h l, format_02x b = String h (String l "").
Proof.
  unfold format_02x. now eexists _, _.
Qed.

Lemma mac_text_cons (b b' : byte) (l : list byte) :
  mac_text (b :: b' :: l) = format_02x b ++ ":" ++ mac_text (b' :: l).
Proof.
  reflexivity.
Qed.

Lemma mac_text_chars (addr : list byte) : all_chars is_mac_char (mac_text addr) = true.
Proof.
  induction addr as [|b [|b' l] IH]; [reflexivity | apply format_02x_chars |].
  rewrite mac_text_cons, !all_chars_append, format_02x_chars, IH. reflexivity.
Qed.

Lemma mac_text_length (addr : list byte) :
  addr <> [] -> String.length (mac_text addr) = (3 * List.length addr - 1)%nat.
Proof.
  induction addr as [|b [|b' l] IH]; intros Hne; [contradiction | reflexivity |].
  rewrite mac_text_cons. destruct (format_02x_shape b) as (h & lo & ->).
  cbn [append String.length]. rewrite IH by discriminate.
  cbn [List.length]. lia.
Qed.

Lemma mac_text_injective (a : list byte) :
  forall b, mac_text a = mac_text b -> a = b.
Proof.
  induction a as [|x [|x' a'] IH]; intros b H.
  - destruct b as [|y [|y' b']]; [reflexivity | |].
    + destruct (format_02x_shape y) as (h & l & E). cbn in H. unfold mac_text in H.
      cbn in H. discriminate H.
    + rewrite mac_text_cons in H. destruct (format_02x_shape y) as (h & l & E).
      rewrite E in H. discriminate H.
  - destruct b as [|y [|y' b']].
    + destruct (format_02x_shape x) as (h & l & E). unfold mac_text in H. cbn in H.
      discriminate H.
    + change (format_02x x = format_02x y) in H.
      pose proof (format_02x_decode x) as Dx. rewrite H, format_02x_decode in Dx.
      now injection Dx as <-.
    + rewrite mac_text_cons in H. change (mac_text [x]) with (format_02x x) in H.
      destruct (format_02x_shape x) as (h & l & Ex).
      destruct (format_02x_shape y) as (h' & l' & Ey).
      rewrite Ex, Ey in H. discriminate H.
  - destruct b as [|y [|y' b']].
    + rewrite mac_text_cons in H. destruct (format_02x_shape x) as (h & l & E).
      rewrite E in H. discriminate H.
    + rewrite mac_text_cons in H. change (mac_text [y]) with (format_02x y) in H.
      destruct (format_02x_shape x) as (h & l & Ex).
      destruct (format_02x_shape y) as (h' & l' & Ey).
      rewrite Ex, Ey in H. discriminate H.
    + rewrite !mac_text_cons in H.
      pose proof (format_02x_decode x) as Dx. pose proof (format_02x_decode y) as Dy.
      destruct (format_02x_shape x) as (h & l & Ex).
      destruct (format_02x_shape y) as (h' & l' & Ey).
      rewrite Ex, Ey in H. cbn [append] in H. injection H as Hh Hl Ht.
      rewrite Ex in Dx. rewrite Ey in Dy. subst h' l'. rewrite Dx in Dy.
      injection Dy as <-. f_equal. now apply IH.
Qed.

Lemma no_space_rstrip (s : string) :
  all_chars (fun c => negb (is_space c)) s = true -> rstrip s = s.
Proof.
  induction s as [|c s IH]; [reflexivity|].
  cbn [all_chars rstrip]. intros H. apply andb_true_iff in H as [Hc Hs].
  rewrite (IH Hs). apply negb_true_iff in Hc. now rewrite Hc, andb_false_r.
Qed.

Lemma no_space_strip (s : string) :
  all_chars (fun c => negb (is_space c)) s = true -> strip s = s.
Proof.
  intros H. unfold strip. rewrite lstrip_fixed; [now apply no_space_rstrip|].
  destruct s as [|c s]; [exact I|]. cbn [all_chars] in H.
  apply andb_true_iff in H as [Hc _]. now apply negb_true_iff in Hc.
Qed.

Lemma all_chars_impl (p q : ascii -> bool) (s : string) :
  (forall c, p c = true -> q c = true) -> all_chars p s = true -> all_chars q s = true.
Proof.
  intros Hpq. induction s as [|c s IH]; [reflexivity|].
  cbn [all_chars]. intros H. apply andb_true_iff in H as [Hc Hs].
  now rewrite (Hpq c Hc), (IH Hs).
Qed.

Lemma mac_char_not_space (c : ascii) : is_mac_char c = true -> negb (is_space c) = true.
Proof.
  destruct c as [[] [] [] [] [] [] [] []]; intros H; try discriminate H; reflexivity.
Qed.

(** X12.  The address of a device is printed as its bytes in two
    lower-case hexadecimal digits each, joined by colons: [3n - 1]
    characters for [n >= 1] bytes, none of them blank, so that the
    service's [strip] leaves the text as it is; and two different
    addresses never give the same text. *)
Theorem mac_text_is_faithful (a b : list byte) :
  all_chars is_mac_char (mac_text a) = true
  /\ strip (mac_text a) = mac_text a
  /\ (a <> [] -> String.length (mac_text a) = (3 * List.length a - 1)%nat)
  /\ (mac_text a = mac_text b -> a = b).
Proof.
  repeat split.
  - apply mac_text_chars.
  - apply no_space_strip.
    exact (all_chars_impl _ _ _ mac_char_not_space (mac_text_chars a)).
  - apply mac_text_length.
  - apply mac_text_injective.
Qed.

Lemma mac_text_is_faithful_witness :
  String.length (mac_text [xaa; xbb; xcc; xdd; xee; x99]) = 17%nat
  /\ mac_text [xaa; xbb; xcc; xdd; xee; x99] = "aa:bb:cc:dd:ee:99".
Proof.
  split; [|reflexivity].
  exact (proj1 (proj2 (proj2 (mac_text_is_faithful [xaa; xbb; xcc; xdd; xee; x99] [])))
           ltac:(discriminate)).
Defined.

(** ** What a scan collects *)

(** X13.  [scan_for_beacons] collects exactly the advertisements that
    pass the filter, in the order of the scan and with nothing merged:
    the addresses and signal strengths of the beacons are those of the
    matching results; an advertisement that does not match is never
    reported; and a scan that raises gives the empty list. *)
Theorem scan_collects_the_matches
  (target : string) (rtc : clock) (results : list scan_result) (e : exn) :
  map (fun b => (mac_address b, beacon_rssi b))
      (scan_for_beacons target rtc (Ok results))
  = map (fun r => (mac_text (addr r), rssi r)) (filter (matches target) results)
  /\ (forall r, matches target r = false ->
        filter (matches target) (r :: results) = filter (matches target) results
        /\ scan_for_beacons target rtc (Ok (r :: results))
           = scan_for_beacons target rtc (Ok results))
  /\ scan_for_beacons target rtc (Raise e) = [].
Proof.
  split; [|split].
  - unfold scan_for_beacons. generalize 0%nat.
    induction results as [|r results IH]; intros reads; [reflexivity|].
    cbn [scan_loop filter]. unfold matches at 1.
    destruct (is_target_beacon target (adv_data r)); cbn [map]; now rewrite IH.
  - intros r H. split.
    + cbn [filter]. now rewrite H.
    + unfold scan_for_beacons. cbn [scan_loop]. unfold matches in H. now rewrite H.
  - reflexivity.
Qed.

Lemma scan_collects_the_matches_witness :
  let hit := {| addr_type := 1; addr := [xaa; xbb; xcc; xdd; xee; x99]; adv_type := 0;
                rssi := -60; adv_data := AdvBytes [x02; x01; x12; xab] |} in
  let miss := {| addr_type := 1; addr := [x01; x02; x03; x04; x05; x06]; adv_type := 0;
                 rssi := -40; adv_data := AdvBytes [x02; x01; x06] |} in
  let rtc : clock := fun _ => Raise OverflowError in
  scan_for_beacons "12-AB" rtc (Ok [miss; hit; hit])
  = scan_for_beacons "12-AB" rtc (Ok [hit; hit])
  /\ map (fun b => (mac_address b, beacon_rssi b))
         (scan_for_beacons "12-AB" rtc (Ok [hit; hit]))
     = [("aa:bb:cc:dd:ee:99", -60); ("aa:bb:cc:dd:ee:99", -60)].
Proof.
  intros hit miss rtc. split.
  - exact (proj2 (proj1 (proj2 (scan_collects_the_matches "12-AB" rtc [hit; hit] TypeError))
                    miss eq_refl)).
  - exact (proj1 (scan_collects_the_matches "12-AB" rtc [hit; hit] TypeError)).
Defined.

(** ** The filter and the identifier *)

Lemma lower_char_idempotent (c : ascii) : lower_char (lower_char c) = lower_char c.
Proof.
  destruct c as [[] [] [] [] [] [] [] []]; reflexivity.
Qed.

Lemma lower_char_hyphen (c : ascii) : Ascii.eqb (lower_char c) "-" = Ascii.eqb c "-".
Proof.
  destruct c as [[] [] [] [] [] [] [] []]; reflexivity.
Qed.

Lemma lower_idempotent (s : string) : lower (lower s) = lower s.
Proof.
  induction s as [|c s IH]; simpl; [reflexivity|]. now rewrite lower_char_idempotent, IH.
Qed.

Lemma remove_hyphen_lower (s : string) :
  remove_char "-" (lower s) = lower (remove_char "-" s).
Proof.
  induction s as [|c s IH]; simpl; [reflexivity|].
  rewrite lower_char_hyphen. destruct (Ascii.eqb c "-"); simpl; now rewrite IH.
Qed.

Lemma remove_char_idempotent (x : ascii) (s : string) :
  remove_char x (remove_char x s) = remove_char x s.
Proof.
  induction s as [|c s IH]; simpl; [reflexivity|].
  destruct (Ascii.eqb c x) eqn:E; [exact IH|]. simpl. now rewrite E, IH.
Qed.

Lemma hexlify_app (a b : list byte) : hexlify (a ++ b) = hexlify a ++ hexlify b.
Proof.
  unfold hexlify. induction a as [|x a IH]; [reflexivity|].
  cbn [map app concat_all]. rewrite IH.
  destruct (format_02x_shape x) as (h & l & ->). reflexivity.
Qed.

Lemma string_app_empty_r (s : string) : s ++ "" = s.
Proof.
  induction s as [|c s IH]; simpl; [reflexivity | now rewrite IH].
Qed.

Lemma string_app_assoc (a b c : string) : (a ++ b) ++ c = a ++ (b ++ c).
Proof.
  induction a as [|x a IH]; simpl; [reflexivity | now rewrite IH].
Qed.

Lemma beacon_filter_iff (target : string) (bs : list byte) :
  is_target_beacon target (AdvBytes bs) = true
  <-> is_substring (normalized_identifier target) (hexlify bs).
Proof.
  unfold is_target_beacon, is_target_beacon_body, normalized_identifier. cbn [bind].
  rewrite lower_hexlify. apply contains_iff.
Qed.

(** X14.  The filter looks at the identifier only through its
    normal form: writing the identifier in lower case, or without its
    hyphens, or already normalized, changes no answer. *)
Theorem filter_ignores_case_and_hyphens (target : string) (adv : adv_payload) :
  is_target_beacon (lower target) adv = is_target_beacon target adv
  /\ is_target_beacon (remove_char "-" target) adv = is_target_beacon target adv
  /\ is_target_beacon (normalized_identifier target) adv = is_target_beacon target adv.
Proof.
  unfold is_target_beacon, is_target_beacon_body, normalized_identifier.
  repeat split.
  - now rewrite remove_hyphen_lower, lower_idempotent.
  - now rewrite remove_char_idempotent.
  - now rewrite remove_hyphen_lower, remove_char_idempotent, lower_idempotent.
Qed.

(** X15.  The match is loose: a payload that matches still matches
    with any bytes put before and after it, and a payload that holds,
    anywhere, bytes whose hexadecimal rendering is the normalized
    identifier matches. *)
Theorem filter_matches_anywhere
  (target : string) (pre bs post : list byte) :
  (is_target_beacon target (AdvBytes bs) = true ->
   is_target_beacon target (AdvBytes (pre ++ bs ++ post)) = true)
  /\ (hexlify bs = normalized_identifier target ->
      is_target_beacon target (AdvBytes (pre ++ bs ++ post)) = true).
Proof.
  assert (Hmono : is_substring (normalized_identifier target) (hexlify bs) ->
                  is_target_beacon target (AdvBytes (pre ++ bs ++ post)) = true).
  { intros (a & b & E).
    apply (proj2 (beacon_filter_iff target (pre ++ bs ++ post))).
    exists (hexlify pre ++ a), (b ++ hexlify post).
    rewrite !hexlify_app, E, !string_app_assoc. reflexivity. }
  split.
  - intros H. apply Hmono. now apply (proj1 (beacon_filter_iff target bs)).
  - intros H. apply Hmono. exists "", "". rewrite H. cbn [append].
    now rewrite string_app_empty_r.
Qed.

Lemma filter_matches_anywhere_witness :
  is_target_beacon "12345678-1234-5678-1234-56789abcdef0"
    (AdvBytes ([x02; x01; x06; x11; x07] ++
               [x12; x34; x56; x78; x12; x34; x56; x78;
                x12; x34; x56; x78; x9a; xbc; xde; xf0] ++ [x00])) = true.
Proof.
  exact (proj2 (filter_matches_anywhere "12345678-1234-5678-1234-56789abcdef0"
                  [x02; x01; x06; x11; x07]
                  [x12; x34; x56; x78; x12; x34; x56; x78;
                   x12; x34; x56; x78; x9a; xbc; xde; xf0] [x00]) eq_refl).
Defined.

(** * From the scanner to the store *)

(** X16.  A sighting goes through.  Let [r] be the [j]-th advertisement
    of a scan that matches the filter, with an address of at least one
    byte; let the scanner's classroom be positive, the clock read made
    for [r] either raise or hand over a real date and time, and the
    store accept the write.  Then the scan reports a beacon for [r], and
    the body posted for it is answered 200 by the service; the row
    appended holds the printed address, the classroom and the parsed
    timestamp, and, for a year from 1000 on, its timestamp reads back as
    the very string the scanner sent. *)
Theorem detected_beacon_is_recorded
  (target : string) (rtc : clock) (results : list scan_result) (j : nat)
  (r : scan_result) (classroom : Z) (env : store_env) (w : world)
  (Hmatch : nth_error (filter (matches target) results) j = Some r)
  (Haddr : addr r <> [])
  (Hclass : 0 < classroom)
  (Hclock : forall t, rtc j = Ok t -> valid (datetime_of_rtc t) = true)
  (Hstore : store_ok env w = true) :
  exists b d,
    nth_error (scan_for_beacons target rtc (Ok results)) j = Some b
    /\ strptime (timestamp b) = Ok d
    /\ (1000 <= year d -> strftime d = timestamp b)
    /\ let (resp, w') :=
         record_attendance env w (Ok (payload_body (build_payload classroom b))) in
       resp = {| status := 200; success := true;
                 message := "Attendance recorded successfully";
                 data := Echo (mac_text (addr r)) classroom (timestamp b) |}
       /\ table w' = (table w ++ [{| row_id := auto_increment w;
                                     row_mac := mac_text (addr r);
                                     row_classroom := classroom; row_ts := d |}])%list.
Proof.
  set (stamp := get_current_timestamp (rtc j)).
  destruct (get_current_timestamp_parses (rtc j) Hclock) as [Hfmt Hparse].
  fold stamp in Hfmt, Hparse.
  destruct (fixed_format_round_trip stamp Hfmt) as (d & Hd & _ & Hstrip & Hrender).
  exists (beacon_of r stamp), d.
  split; [|split; [exact Hd | split; [exact Hrender|]]].
  - unfold scan_for_beacons. rewrite scan_loop_nth, Hmatch. reflexivity.
  - assert (Hmac : strip (mac_text (addr r)) = mac_text (addr r)).
    { apply no_space_strip.
      exact (all_chars_impl _ _ _ mac_char_not_space (mac_text_chars (addr r))). }
    assert (Hne : is_empty (strip (mac_text (addr r))) = false).
    { rewrite Hmac. pose proof (mac_text_length (addr r) Haddr) as L.
      destruct (mac_text (addr r)); [|reflexivity].
      destruct (addr r); [contradiction | cbn in L; lia]. }
    pose proof (record_attendance_accepts env w
                  [("student_mac_address", JStr (mac_text (addr r)));
                   ("classroom_id", JInt classroom); ("timestamp", JStr stamp)]
                  (mac_text (addr r)) stamp (JInt classroom) classroom d
                  (conj eq_refl (conj eq_refl eq_refl)) Hne eq_refl Hclass
                  ltac:(rewrite Hstrip; exact Hd) Hstore) as H.
    unfold payload_body, build_payload, beacon_of.
    cbn [Scanner.student_mac_address Scanner.classroom_id sighting_timestamp
         mac_address timestamp].
    fold (mac_text (addr r)).
    destruct (record_attendance env w (Ok _)) as [resp w'].
    destruct H as (-> & Ht & _). rewrite Hmac, Hstrip in *. split; [reflexivity | exact Ht].
Qed.

Lemma detected_beacon_is_recorded_witness :
  let hit := {| addr_type := 1; addr := [xaa; xbb; xcc; xdd; xee; x99]; adv_type := 0;
                rssi := -60; adv_data := AdvBytes [x02; x01; x12; xab] |} in
  let rtc : clock := fun _ =>
        Ok {| rtc_year := 2024; rtc_month := 1; rtc_day := 15; rtc_weekday := 0;
              rtc_hours := 9; rtc_minutes := 30; rtc_seconds := 0; rtc_subseconds := 0 |} in
  let env := {| on_connect := Connected; cursor_ok := true; statement_ok := true;
                rollback_ok := true |} in
  let w := {| connection := NoHandle; table := []; auto_increment := 1 |} in
  exists b d,
    nth_error (scan_for_beacons "12-AB" rtc (Ok [hit])) 0 = Some b
    /\ strptime (timestamp b) = Ok d /\ strftime d = timestamp b
    /\ year d = 2024
    /\ status (fst (record_attendance env w (Ok (payload_body (build_payload 101 b))))) = 200.
Proof.
  intros hit rtc env w.
  destruct (detected_beacon_is_recorded "12-AB" rtc [hit] 0%nat hit 101 env w
              eq_refl ltac:(discriminate) eq_refl
              ltac:(intros t [= <-]; reflexivity) eq_refl)
    as (b & d & H1 & H2 & H3 & H4).
  assert (Hb : b = beacon_of hit "2024-01-15 09:30:00") by (now injection H1).
  assert (Hy : year d = 2024) by (rewrite Hb in H2; now injection H2 as <-).
  exists b, d. repeat split; try assumption.
  - apply H3. rewrite Hy. discriminate.
  - destruct (record_attendance env w (Ok (payload_body (build_payload 101 b)))) as [resp w'].
    destruct H4 as [-> _]. reflexivity.
Defined.

(** * Health and start-up *)

(** X17.  [/api/health] always answers 200 with [success] true
    and leaves table and counter alone.  The status it reports is that
    of a fresh connection attempt, not of the handle held: it says
    "connected" exactly when the server grants a connection now, and
    "disconnected" otherwise.  The timestamp is the rendering of the
    current time: from year 1000 on it is of the fixed format and parses
    back to that time, and for an earlier year it does not parse. *)
Theorem health_check_reports (env : store_env) (w : world) (now : datetime)
  (Hnow : valid now = true) :
  let (resp, w') := health_check env w now in
  health_status resp = 200 /\ health_success resp = true
  /\ (database_status resp = "connected" <-> on_connect env = Connected)
  /\ (database_status resp = "disconnected" <-> on_connect env <> Connected)
  /\ health_timestamp resp = strftime now
  /\ (1000 <= year now -> strptime (health_timestamp resp) = Ok now)
  /\ (year now < 1000 -> exists e, strptime (health_timestamp resp) = Raise e)
  /\ table w' = table w /\ auto_increment w' = auto_increment w.
Proof.
  unfold health_check, connect.
  destruct (on_connect env);
    cbn [health_status health_success database_status health_timestamp
         set_connection table auto_increment];
    (repeat split; try reflexivity; try discriminate; try congruence;
     try (intros Hy; exact (proj2 (proj1 (strftime_strptime now Hnow) Hy)));
     try (intros Hy; exact (proj2 (strftime_strptime now Hnow) Hy))).
Qed.

Lemma health_check_reports_witness :
  let env := {| on_connect := ConnectError; cursor_ok := true; statement_ok := true;
                rollback_ok := true |} in
  let w := {| connection := Handle true; table := []; auto_increment := 1 |} in
  let now := {| year := 2024; month := 1; day := 15; hour := 9; minute := 30; second := 0 |} in
  database_status (fst (health_check env w now)) = "disconnected"
  /\ health_status (fst (health_check env w now)) = 200
  /\ strptime (health_timestamp (fst (health_check env w now))) = Ok now.
Proof.
  intros env w now.
  pose proof (health_check_reports env w now eq_refl) as H.
  destruct (health_check env w now) as [resp w'].
  destruct H as (H1 & _ & _ & H4 & _ & H6 & _). split; [|split; [exact H1|]].
  - apply (proj2 H4). discriminate.
  - apply H6. discriminate.
Defined.

(** X18.  The connection test of [initialize_server] leaves no live
    handle behind: started from a service that holds none, it ends with
    a handle that is closed, dead or absent and with the table
    untouched, so the first request has to connect, and the store serves
    it exactly when the server then grants a connection and refuses
    neither cursor nor statement. *)
Theorem startup_leaves_no_connection (env0 env : store_env) (w : world)
  (Hfresh : connection w = NoHandle) :
  needs_connect (initialize_server env0 w) = true
  /\ table (initialize_server env0 w) = table w
  /\ auto_increment (initialize_server env0 w) = auto_increment w
  /\ store_ok env (initialize_server env0 w)
     = gives_connection (on_connect env) && cursor_ok env && statement_ok env.
Proof.
  unfold initialize_server, connect, disconnect, store_ok, reachable, needs_connect.
  destruct (on_connect env0); cbn [set_connection connection table auto_increment];
    rewrite ?Hfresh; repeat split.
Qed.

Lemma startup_leaves_no_connection_witness :
  let env0 := {| on_connect := Connected; cursor_ok := true; statement_ok := true;
                rollback_ok := true |} in
  let w := {| connection := NoHandle; table := []; auto_increment := 1 |} in
  connection (initialize_server env0 w) = Handle false
  /\ needs_connect (initialize_server env0 w) = true.
Proof.
  intros env0 w. split; [reflexivity|].
  exact (proj1 (startup_leaves_no_connection env0 env0 w eq_refl)).
Defined.

(** * The store adapter on its own *)

(** X19.  [insert_attendance_record] returns [True] exactly when the
    store can be reached, refuses neither cursor nor statement, and the
    timestamp parses; it then appends the one row, and otherwise leaves
    table and counter as they were.  What is not [True] is [False], or
    the database error of a rollback that raised in the handler of a
    refused cursor or statement: nothing else leaves the function.  It
    checks neither the address nor the classroom: that is left to the
    route. *)
Theorem insert_succeeds_iff
  (env : store_env) (w : world) (mac : string) (n : Z) (ts : string) :
  let (outcome, w') := insert_attendance_record env w mac n ts in
  (outcome = Ok true <-> store_ok env w = true /\ exists d, strptime ts = Ok d)
  /\ (outcome = Ok true ->
      exists d, strptime ts = Ok d
        /\ table w' = (table w ++ [{| row_id := auto_increment w; row_mac := mac;
                                      row_classroom := n; row_ts := d |}])%list)
  /\ (outcome <> Ok true -> table w' = table w /\ auto_increment w' = auto_increment w)
  /\ (outcome = Ok true \/ outcome = Ok false \/ outcome = Raise DbError)
  /\ (outcome = Raise DbError
      <-> rollback_escapes env w (match strptime ts with Ok _ => true | Raise _ => false end)
          = true).
Proof.
  pose proof (insert_outcomes env w mac n ts) as Hout.
  assert (Hraise : fst (insert_attendance_record env w mac n ts) = Raise DbError
                   <-> rollback_escapes env w
                         (match strptime ts with Ok _ => true | Raise _ => false end) = true).
  { unfold insert_attendance_record, rollback_escapes, rollback_then_false.
    destruct (reachable env w) eqn:Hr.
    - destruct (reachable_ensure_connected env w Hr) as [w1 ->].
      destruct (cursor_ok env), (strptime ts), (statement_ok env), (rollback_ok env);
        cbn [negb andb orb fst]; split; congruence.
    - rewrite (unreachable_ensure_connected env w Hr). cbn [andb fst]. split; congruence. }
  destruct (insert_attendance_record env w mac n ts) as [outcome w'] eqn:E.
  cbn [fst] in Hout, Hraise.
  split; [|split; [|split; [|split; [exact Hout | exact Hraise]]]].
  - split.
    + intros ->. destruct (insert_true_inv _ _ _ _ _ _ E) as (w1 & d & Hc & Hts & _).
      split; [|now exists d].
      revert E. unfold insert_attendance_record, store_ok, rollback_then_false.
      rewrite Hc, Hts.
      assert (Hr : reachable env w = true).
      { destruct (reachable env w) eqn:Hr; [reflexivity|].
        rewrite (unreachable_ensure_connected env w Hr) in Hc. discriminate Hc. }
      rewrite Hr. destruct (cursor_ok env); cbn [negb andb];
        [|destruct (rollback_ok env); discriminate].
      destruct (statement_ok env); [reflexivity | destruct (rollback_ok env); discriminate].
    + intros [Hok [d Hts]].
      destruct (insert_accepted env w mac n ts d Hok Hts) as (w1 & _ & E').
      rewrite E' in E. now injection E as <- _.
  - intros ->. destruct (insert_true_inv _ _ _ _ _ _ E) as (w1 & d & Hc & Hts & ->).
    pose proof (ensure_connected_table env w w1 Hc) as [Et Ea].
    exists d. split; [exact Hts|]. cbn [append_row table]. now rewrite Et, Ea.
  - intros Hno. exact (insert_refused_table _ _ _ _ _ _ _ E Hno).
Qed.

Lemma insert_succeeds_iff_witness :
  let env := {| on_connect := Connected; cursor_ok := true; statement_ok := true;
                rollback_ok := true |} in
  let w := {| connection := NoHandle; table := []; auto_increment := 1 |} in
  fst (insert_attendance_record env w "" (-5) "2024-01-15 09:30:00") = Ok true
  /\ fst (insert_attendance_record env w "AA:BB" 101 "2024-02-30 09:30:00") = Ok false
  /\ fst (insert_attendance_record
            {| on_connect := Connected; cursor_ok := true; statement_ok := false;
               rollback_ok := false |} w "AA:BB" 101 "2024-01-15 09:30:00")
     = Raise DbError.
Proof.
  intros env w. split; [|split].
  - pose proof (insert_succeeds_iff env w "" (-5) "2024-01-15 09:30:00") as H.
    destruct (insert_attendance_record env w "" (-5) "2024-01-15 09:30:00") as [b w'].
    destruct H as [H _]. apply (proj2 H). split; [reflexivity|].
    now exists {| year := 2024; month := 1; day := 15; hour := 9; minute := 30; second := 0 |}.
  - reflexivity.
  - pose proof (insert_succeeds_iff
                  {| on_connect := Connected; cursor_ok := true; statement_ok := false;
                     rollback_ok := false |} w "AA:BB" 101 "2024-01-15 09:30:00") as H.
    destruct (insert_attendance_record _ w "AA:BB" 101 "2024-01-15 09:30:00") as [b w'].
    destruct H as (_ & _ & _ & _ & H). apply (proj2 H). reflexivity.
Defined.

(** X20.  A [limit] that is not the text of an integer is no error: the
    request is answered as if no limit had been given; and [limit=0] is
    answered 200 with no record. *)
Theorem recent_limit_fallback
  (env : store_env) (w : world) (raw : string) (e : exn)
  (Hraw : int_of_str raw = Raise e) :
  Server.get_recent_attendance env w (Some raw) = Server.get_recent_attendance env w None
  /\ fst (Server.get_recent_attendance env w (Some "0")) = empty_listing.
Proof.
  split.
  - unfold Server.get_recent_attendance, limit_arg. now rewrite Hraw.
  - unfold Server.get_recent_attendance.
    change (limit_arg (Some "0")) with 0. cbn [Z.gtb Z.compare].
    pose proof (db_get_recent_cases env w 0) as H.
    destruct (AttendanceDatabase.get_recent_attendance env w 0) as [records w'].
    destruct H as (_ & _ & [[-> _] | (-> & _)]); reflexivity.
Qed.

Lemma recent_limit_fallback_witness :
  let env := {| on_connect := Connected; cursor_ok := true; statement_ok := true;
                rollback_ok := true |} in
  let w := {| connection := NoHandle; table := []; auto_increment := 1 |} in
  Server.get_recent_attendance env w (Some "ten") = Server.get_recent_attendance env w None.
Proof.
  intros env w.
  exact (proj1 (recent_limit_fallback env w "ten"
                  (ValueError "invalid literal for int() with base 10: 'ten'") eq_refl)).
Defined.
